(** * downloader_core: a shallow embedding of [src/downloader_core.py]

    The module is a linear pipeline around three collaborators: a network
    speed probe ([speedtest]), a media extraction library ([yt_dlp]) and an
    encoder process ([ffmpeg]).  The embedding keeps the control flow of the
    Python source and threads an explicit world (the file system and a
    trace of the external calls) through it.

    Modelling conventions.
    - Python [str] is [string]; [x in y] on strings is [str_contains].
    - Python floats that are finite are rationals ([Q]): the comparisons
      of the source ([>=] against integer constants) are exact on them,
      the rounding of a float division is not modelled.
    - [pathlib.Path] is the tuple of its [parts], in the POSIX flavour of
      CPython up to 3.13.  A file is identified by these parts: two
      spellings of one file (relative and absolute, or through a symbolic
      link) are different paths.
    - The file system is a finite map from paths to [Stat] records;
      [exists], [stat], [unlink] and [glob] are functions of it, and no
      other process changes it between two steps of the pipeline.
    - The collaborators (tool lookup, speed probe, directory creation,
      extraction, encoder process) are the fields of a record; each may
      read and change the file system, and nothing else is assumed about
      them.
    - Exceptions are values of [PyExc]; only subclasses of [Exception]
      are modelled (the source catches [Exception] throughout).
    - Console output ([print]) is not part of the model. *)

From Stdlib Require Import ZArith QArith Lqa String Ascii List Lia DecimalString.
From stdpp Require Import gmap strings list fin_maps.

Local Open Scope string_scope.
Local Open Scope Z_scope.

(** ** Python strings *)

Module PyStr.

(** [needle in hay] *)
Fixpoint str_contains (needle hay : string) : bool :=
  if String.prefix needle hay then true
  else match hay with
       | EmptyString => false
       | String _ rest => str_contains needle rest
       end.

(** [s.split(sep)] for a one-character separator *)
Fixpoint split_on (sep : ascii) (s : string) : list string :=
  match s with
  | EmptyString => [EmptyString]
  | String a rest =>
      let r := split_on sep rest in
      if Ascii.eqb a sep then EmptyString :: r
      else match r with
           | hd :: tl => String a hd :: tl
           | [] => [String a EmptyString]
           end
  end.

(** [sep.join(parts)] *)
Fixpoint join (sep : string) (parts : list string) : string :=
  match parts with
  | [] => ""
  | [p] => p
  | p :: rest => p +:+ sep +:+ join sep rest
  end.

(** [s.rfind(c)], [None] standing for -1 *)
Fixpoint rfind (c : ascii) (s : string) : option nat :=
  match s with
  | EmptyString => None
  | String a rest =>
      match rfind c rest with
      | Some i => Some (S i)
      | None => if Ascii.eqb a c then Some O else None
      end
  end.

(** [s.replace(c, '')] for a one-character pattern *)
Fixpoint remove_char (c : ascii) (s : string) : string :=
  match s with
  | EmptyString => EmptyString
  | String a rest =>
      if Ascii.eqb a c then remove_char c rest
      else String a (remove_char c rest)
  end.

Definition upper_ascii (a : ascii) : ascii :=
  let n := nat_of_ascii a in
  if (97 <=? n)%nat && (n <=? 122)%nat then ascii_of_nat (n - 32) else a.

(** [s.upper()] on ASCII letters *)
Fixpoint upper (s : string) : string :=
  match s with
  | EmptyString => EmptyString
  | String a rest => String (upper_ascii a) (upper rest)
  end.

(** [str(n)] for an integer *)
Definition str_of_Z (n : Z) : string := NilZero.string_of_int (Z.to_int n).

(** Truthiness of a string: non-empty *)
Definition truthy (s : string) : bool :=
  match s with EmptyString => false | _ => true end.

End PyStr.

(** ** pathlib *)

Module pathlib.

(** A path is the tuple [PurePosixPath.parts]; an absolute path starts
    with the part ["/"]. *)
Definition Path := list string.

Definition is_blank_part (s : string) : bool :=
  String.eqb s "" || String.eqb s ".".

(** [Path(s)]: split on the separator, drop empty and ["."] parts, keep a
    leading root (the POSIX special case of exactly two leading slashes
    is read as a single root). *)
Definition Path_of_str (s : string) : Path :=
  let body := List.filter (fun c => negb (is_blank_part c))
                          (PyStr.split_on "/"%char s) in
  if String.prefix "/" s then "/" :: body else body.

Definition is_root (p : Path) : bool :=
  match p with
  | [r] => String.eqb r "/"
  | _ => false
  end.

(** [p.name] *)
Definition name (p : Path) : string :=
  if is_root p then "" else List.last p "".

(** The index of the dot that starts the suffix of a name, if it has one:
    [0 < i < len(name) - 1] for [i = name.rfind('.')]. *)
Definition suffix_index (nm : string) : option nat :=
  match PyStr.rfind "."%char nm with
  | Some i =>
      if (0 <? i)%nat && (i <? String.length nm - 1)%nat then Some i else None
  | None => None
  end.

(** [p.suffix] *)
Definition suffix (p : Path) : string :=
  let nm := name p in
  match suffix_index nm with
  | Some i => String.substring i (String.length nm - i) nm
  | None => ""
  end.

(** [p.stem] *)
Definition stem (p : Path) : string :=
  let nm := name p in
  match suffix_index nm with
  | Some i => String.substring 0 i nm
  | None => nm
  end.

(** [p / s] *)
Definition joinpath (p : Path) (s : string) : Path :=
  let q := Path_of_str s in
  if String.prefix "/" s then q else (p ++ q)%list.

(** [str(p)] *)
Definition str (p : Path) : string :=
  match p with
  | [] => "."
  | r :: rest =>
      if String.eqb r "/" then "/" +:+ PyStr.join "/" rest
      else PyStr.join "/" p
  end.

End pathlib.


Import pathlib.

(** ** Exceptions and results of Python calls *)

(** The exception classes that occur in the module.  [LibraryError] stands
    for any other subclass of [Exception] raised by a collaborator. *)
Inductive PyExc : Type :=
| RuntimeError (msg : string)
| TypeError (msg : string)
| FileNotFoundError (msg : string)
| IsADirectoryError (msg : string)
| LibraryError (msg : string).

(** [str(e)] *)
Definition str_of_exc (e : PyExc) : string :=
  match e with
  | RuntimeError m | TypeError m | FileNotFoundError m
  | IsADirectoryError m | LibraryError m => m
  end.

Inductive PyResult (A : Type) : Type :=
| Returns (a : A)
| Raises (e : PyExc).
Arguments Returns {A} a.
Arguments Raises {A} e.

(** ** The file system *)

Record Stat : Type := mkStat {
  st_isdir : bool;
  st_mtime : Q;
  st_size : N
}.

Module FS.

(** [p.exists()] *)
Definition exists_ (fs : gmap Path Stat) (p : Path) : bool :=
  match fs !! p with Some _ => true | None => false end.

(** [os.unlink]: removes a regular file; a missing path and a directory
    are errors (the latter is [IsADirectoryError] on Linux). *)
Definition unlink (fs : gmap Path Stat) (p : Path)
  : PyResult (gmap Path Stat) :=
  match fs !! p with
  | None => Raises (FileNotFoundError (pathlib.str p))
  | Some st =>
      if st_isdir st then Raises (IsADirectoryError (pathlib.str p))
      else Returns (delete p fs)
  end.

(** [q] is a direct child of directory [dir]. *)
Definition is_child_of (dir q : Path) : bool :=
  (length q =? S (length dir))%nat
  && bool_decide (take (length dir) q = dir)
  && negb (is_root q).

(** [list(dir.glob("*"))]: every entry directly inside [dir], with its
    [stat()] result, in directory-listing order. *)
Definition glob_star (fs : gmap Path Stat) (dir : Path) : list (Path * Stat) :=
  List.filter (fun e => is_child_of dir (fst e)) (map_to_list fs).

End FS.

(** [max(files, key=lambda x: x.stat().st_mtime)]: the first entry whose
    key is not exceeded by a later one; [None] for an empty list, which the
    source never passes to [max]. *)
Fixpoint max_by_mtime_from (best : Path * Stat) (rest : list (Path * Stat))
  : Path * Stat :=
  match rest with
  | [] => best
  | e :: rest' =>
      if Qle_bool (st_mtime (snd e)) (st_mtime (snd best))
      then max_by_mtime_from best rest'
      else max_by_mtime_from e rest'
  end.

Definition max_by_mtime (files : list (Path * Stat)) : option (Path * Stat) :=
  match files with
  | [] => None
  | e :: rest => Some (max_by_mtime_from e rest)
  end.

(** ** Global constants *)

Definition DOWNLOADS_DIR : Path := Path_of_str "downloads".

Definition CONNECTION_THRESHOLDS : list (Z * Z) :=
  [(100, 16); (50, 8); (10, 4); (0, 1)].

(** ** Size formatting *)

(** Rounding of a non-negative rational to the nearest integer, ties to
    even: the rounding of the [.2f] format on a value that the float holds
    exactly. *)
Definition round_half_even (q : Q) : Z :=
  let n := Qnum q in
  let d := Z.pos (Qden q) in
  let fl := n / d in
  let r := n mod d in
  if 2 * r <? d then fl
  else if d <? 2 * r then fl + 1
  else if Z.even fl then fl else fl + 1.

Definition two_digits (n : Z) : string :=
  if n <? 10 then "0" +:+ PyStr.str_of_Z n else PyStr.str_of_Z n.

(** [f"{x:.2f}"] for [x >= 0] *)
Definition format_2f (x : Q) : string :=
  let h := round_half_even (x * 100) in
  PyStr.str_of_Z (h / 100) +:+ "." +:+ two_digits (h mod 100).

Definition size_names : list string := ["B"; "KB"; "MB"; "GB"].

(** The [while] loop of [human_readable_size]; [steps] is
    [len(size_names) - 1 - i], the number of iterations the bound on [i]
    still allows. *)
Fixpoint scale_size (steps : nat) (size_bytes : Q) (i : nat) : Q * nat :=
  match steps with
  | O => (size_bytes, i)
  | S steps' =>
      if Qle_bool 1024 size_bytes
      then scale_size steps' (size_bytes / 1024) (S i)
      else (size_bytes, i)
  end.

Definition human_readable_size (size_bytes : N) : string :=
  if (size_bytes =? 0)%N then "0 B"
  else
    let '(v, i) := scale_size (length size_names - 1)
                              (inject_Z (Z.of_N size_bytes)) 0 in
    format_2f v +:+ " " +:+ nth i size_names "".

(** ** Speed estimator *)

(** One run of the [speedtest] library as the estimator drives it: each
    of the three calls either returns or raises, and the result dictionary
    may or may not hold a ["download"] figure (bits per second). *)
Record Speedtest : Type := mkSpeedtest {
  st_construct : PyResult unit;
  st_get_best_server : PyResult unit;
  st_download : PyResult unit;
  st_results_download : option Q
}.

Definition measure_download_speed (st : Speedtest) : PyResult Q :=
  let body :=
    match st_construct st with
    | Raises e => Raises e
    | Returns _ =>
        match st_get_best_server st with
        | Raises e => Raises e
        | Returns _ =>
            match st_download st with
            | Raises e => Raises e
            | Returns _ =>
                let dl_bps := default 0%Q (st_results_download st) in
                Returns (dl_bps / 1000000)%Q
            end
        end
    end in
  match body with
  | Returns v => Returns v
  | Raises _ => Returns 10%Q
  end.

(** ** Connection selector *)

Fixpoint scan_thresholds (table : list (Z * Z)) (mbps : Q) : Z :=
  match table with
  | [] => 1
  | (threshold, conns) :: rest =>
      if Qle_bool (inject_Z threshold) mbps then conns
      else scan_thresholds rest mbps
  end.

Definition choose_connections (mbps : Q) : Z :=
  scan_thresholds CONNECTION_THRESHOLDS mbps.

(** ** Data exchanged with the extraction library *)

(** A progress callback; the module only hands it over. *)
Inductive Hook : Type := HookId (n : nat).

(** The option dictionary given to [YoutubeDL]; the key ["progress_hooks"]
    is present only when a hook was supplied. *)
Record YtdlpOpts : Type := mkYtdlpOpts {
  format : string;
  outtmpl : string;
  noplaylist : bool;
  quiet : bool;
  no_warnings : bool;
  ignoreerrors : bool;
  postprocessors : list string;
  skip_download : bool;
  external_downloader : option string;
  external_downloader_args : list string;
  writeinfojson : bool;
  overwrites : bool;
  extract_flat : bool;
  http_headers : list (string * string);
  sleep_interval : Z;
  max_sleep_interval : Z;
  retries : Z;
  fragment_retries : Z;
  skip_unavailable_fragments : bool;
  keep_fragments : bool;
  noprogress : bool;
  progress_hooks : option (list Hook)
}.

(** [opts.copy()] followed by [opts_retry["quiet"] = v] *)
Definition set_quiet (v : bool) (o : YtdlpOpts) : YtdlpOpts :=
  {| format := format o; outtmpl := outtmpl o; noplaylist := noplaylist o;
     quiet := v; no_warnings := no_warnings o; ignoreerrors := ignoreerrors o;
     postprocessors := postprocessors o; skip_download := skip_download o;
     external_downloader := external_downloader o;
     external_downloader_args := external_downloader_args o;
     writeinfojson := writeinfojson o; overwrites := overwrites o;
     extract_flat := extract_flat o; http_headers := http_headers o;
     sleep_interval := sleep_interval o;
     max_sleep_interval := max_sleep_interval o; retries := retries o;
     fragment_retries := fragment_retries o;
     skip_unavailable_fragments := skip_unavailable_fragments o;
     keep_fragments := keep_fragments o; noprogress := noprogress o;
     progress_hooks := progress_hooks o |}.

(** One element of [info["requested_downloads"]]; [None] is a missing (or
    null) ["filepath"]. *)
Record RequestedDownload : Type := mkRequestedDownload {
  rd_filepath : option string
}.

(** The fields of the info dictionary the module reads; [None] is a
    missing key (for ["filepath"], also a null value). *)
Record Info : Type := mkInfo {
  requested_downloads : option (list RequestedDownload);
  filepath : option string;
  title : option string
}.

(** The outcome of [subprocess.run(..., capture_output=True, text=True)] *)
Record CompletedProcess : Type := mkCompletedProcess {
  returncode : Z;
  stderr : string
}.

(** ** The result summary *)

Record FileEntry : Type := mkFileEntry {
  fe_name : string;
  fe_type : string;
  fe_size : string;
  fe_format : string
}.

Record Results : Type := mkResults {
  res_title : string;
  res_status : string;
  res_files : list FileEntry
}.

(** ** The world and the collaborators *)

(** External calls, in the order they are made. *)
Inductive Event : Type :=
| EvMkdir (p : Path)
| EvExtract (opts : YtdlpOpts) (url : string)
| EvUnlink (p : Path)
| EvSpawn (cmd : list string).

Record World : Type := mkWorld {
  fs : gmap Path Stat;
  trace : list Event
}.

(** The environment of one call.  Each collaborator may read and change
    the file system; nothing else is assumed about it.
    - [which tool]: [shutil.which(tool) is not None];
    - [speedtest]: the run of the speed probe;
    - [os_mkdir p]: [p.mkdir(parents=True, exist_ok=True)];
    - [extract_info opts url]: [YoutubeDL(opts).extract_info(url,
      download=True)], which returns an info dictionary or [None], or
      raises;
    - [run_process cmd]: the child process started for [cmd]. *)
Record Collaborators : Type := mkCollaborators {
  which : string -> bool;
  speedtest : Speedtest;
  os_mkdir : Path -> gmap Path Stat -> PyResult unit * gmap Path Stat;
  extract_info : YtdlpOpts -> string -> gmap Path Stat
                 -> PyResult (option Info) * gmap Path Stat;
  run_process : list string -> gmap Path Stat
                -> CompletedProcess * gmap Path Stat
}.

(** ** A state-and-exception monad for the pipeline *)

Definition M (A : Type) : Type := World -> PyResult A * World.

Definition ret {A} (a : A) : M A := fun w => (Returns a, w).

Definition raise {A} (e : PyExc) : M A := fun w => (Raises e, w).

Definition bind {A B} (m : M A) (k : A -> M B) : M B :=
  fun w =>
    match m w with
    | (Returns a, w') => k a w'
    | (Raises e, w') => (Raises e, w')
    end.

(** [try: m  except Exception as e: handler e] *)
Definition try_except {A} (m : M A) (handler : PyExc -> M A) : M A :=
  fun w =>
    match m w with
    | (Returns a, w') => (Returns a, w')
    | (Raises e, w') => handler e w'
    end.

Notation "'let*' x ':=' m 'in' k" := (bind m (fun x => k))
  (at level 10, x name, m at level 100, k at level 200).

(** Run a collaborator on the file system and record the call. *)
Definition call {A} (ev : Event)
    (f : gmap Path Stat -> PyResult A * gmap Path Stat) : M A :=
  fun w =>
    let '(r, fs') := f (fs w) in
    (r, {| fs := fs'; trace := trace w ++ [ev] |}).

Definition get_fs : M (gmap Path Stat) := fun w => (Returns (fs w), w).

(** [p.exists()] *)
Definition path_exists (p : Path) : M bool :=
  fun w => (Returns (FS.exists_ (fs w) p), w).

(** [p.stat()] *)
Definition path_stat (p : Path) : M Stat :=
  fun w =>
    match fs w !! p with
    | Some st => (Returns st, w)
    | None => (Raises (FileNotFoundError (pathlib.str p)), w)
    end.

(** [p.unlink()] *)
Definition path_unlink (p : Path) : M unit :=
  call (EvUnlink p)
       (fun fs0 => match FS.unlink fs0 p with
                   | Returns fs1 => (Returns tt, fs1)
                   | Raises e => (Raises e, fs0)
                   end).

(** ** The pipeline *)

Section Pipeline.

Variable env : Collaborators.

Definition check_tool_exists (tool_name : string) : bool :=
  which env tool_name.

(** [Path(output_dir).mkdir(parents=True, exist_ok=True)] *)
Definition mkdir_parents (p : Path) : M unit :=
  call (EvMkdir p) (os_mkdir env p).

Definition safe_outtmpl (output_dir : Path) : M string :=
  let* _ := mkdir_parents output_dir in
  ret (pathlib.str (joinpath output_dir "%(title).200s.%(ext)s")).

(** Lines 73-82: the speed probe and the connection plan. *)
Definition connection_plan : Q * Z :=
  match measure_download_speed (speedtest env) with
  | Returns mbps => (mbps, choose_connections mbps)
  | Raises _ => (0%Q, 1)
  end.

Definition HTTP_HEADERS : list (string * string) :=
  [("User-Agent", "Mozilla/5.0 (Windows NT 10.0; Win64; x64) AppleWebKit/537.36 (KHTML, like Gecko) Chrome/120.0.0.0 Safari/537.36");
   ("Accept", "text/html,application/xhtml+xml,application/xml;q=0.9,*/*;q=0.8");
   ("Accept-Language", "en-us,en;q=0.5");
   ("Accept-Encoding", "gzip,deflate");
   ("Accept-Charset", "ISO-8859-1,utf-8;q=0.7,*;q=0.7");
   ("Connection", "keep-alive")].

(** Lines 84-124: the options of the first attempt. *)
Definition make_ytdlp_opts (template : string) (connections : Z)
    (progress_hook : option Hook) : YtdlpOpts :=
  let use_aria2 := check_tool_exists "aria2c" && (1 <? connections) in
  {| format := "bestaudio/best";
     outtmpl := template;
     noplaylist := true;
     quiet := true;
     no_warnings := false;
     ignoreerrors := true;
     postprocessors := [];
     skip_download := false;
     external_downloader := if use_aria2 then Some "aria2c" else None;
     external_downloader_args :=
       if use_aria2
       then ["-x"; PyStr.str_of_Z connections;
             "-s"; PyStr.str_of_Z connections; "-k"; "1M"]
       else [];
     writeinfojson := false;
     overwrites := true;
     extract_flat := false;
     http_headers := HTTP_HEADERS;
     sleep_interval := 1;
     max_sleep_interval := 2;
     retries := 10;
     fragment_retries := 10;
     skip_unavailable_fragments := true;
     keep_fragments := false;
     noprogress := true;
     progress_hooks :=
       match progress_hook with
       | Some h => Some [h]
       | None => None
       end |}.

(** [YoutubeDL(opts).extract_info(url, download=True)] *)
Definition ydl_extract_info (opts : YtdlpOpts) (url : string)
  : M (option Info) :=
  call (EvExtract opts url) (extract_info env opts url).

(** Lines 127-138: the first attempt and, when it raises, the retry. *)
Definition extract_with_retry (ytdlp_opts : YtdlpOpts) (url : string)
  : M (option Info) :=
  try_except (ydl_extract_info ytdlp_opts url)
    (fun _ =>
       let ytdlp_opts_retry := set_quiet false ytdlp_opts in
       ydl_extract_info ytdlp_opts_retry url).

Definition BOT_MARKER : string := "Sign in to confirm you're not a bot".
Definition PRIVATE_MARKER : string := "Private video".
Definition UNAVAILABLE_MARKER : string := "Video unavailable".

Definition BOT_MESSAGE : string :=
  "YouTube is requesting bot verification. Please try a different video or try again later.".
Definition PRIVATE_MESSAGE : string :=
  "This is a private video and cannot be downloaded.".
Definition UNAVAILABLE_MESSAGE : string :=
  "This video is unavailable or has been removed.".
Definition generic_message (error_msg : string) : string :=
  "Download failed: " +:+ error_msg.

(** Lines 140-149: the error raised for a failed extraction. *)
Definition classify_failure (e : PyExc) : PyExc :=
  let error_msg := str_of_exc e in
  if PyStr.str_contains BOT_MARKER error_msg then RuntimeError BOT_MESSAGE
  else if PyStr.str_contains PRIVATE_MARKER error_msg
       then RuntimeError PRIVATE_MESSAGE
  else if PyStr.str_contains UNAVAILABLE_MARKER error_msg
       then RuntimeError UNAVAILABLE_MESSAGE
  else RuntimeError (generic_message error_msg).

(** Lines 126-149 *)
Definition extraction_stage (ytdlp_opts : YtdlpOpts) (url : string)
  : M (option Info) :=
  try_except (extract_with_retry ytdlp_opts url)
             (fun e => raise (classify_failure e)).

(** Lines 155-159: the first requested download whose path exists. *)
Fixpoint first_existing_request (files : gmap Path Stat)
    (reqs : list RequestedDownload) : option Path :=
  match reqs with
  | [] => None
  | req :: rest =>
      match rd_filepath req with
      | Some fp =>
          if PyStr.truthy fp && FS.exists_ files (Path_of_str fp)
          then Some (Path_of_str fp)
          else first_existing_request files rest
      | None => first_existing_request files rest
      end
  end.

(** Lines 152-170 on a given file system: [None] is the Python [None]
    left in [downloaded_file]. *)
Definition find_downloaded_file (files : gmap Path Stat) (info : Info)
    (output_path : Path) : option Path :=
  let downloaded_file :=
    match requested_downloads info with
    | Some reqs => first_existing_request files reqs
    | None => None
    end in
  let downloaded_file :=
    match downloaded_file, filepath info with
    | None, Some fp =>
        if PyStr.truthy fp && FS.exists_ files (Path_of_str fp)
        then Some (Path_of_str fp) else None
    | d, _ => d
    end in
  match downloaded_file with
  | Some p => Some p
  | None => fst <$> max_by_mtime (FS.glob_star files output_path)
  end.

Definition NOT_FOUND_MESSAGE : string :=
  "Could not find downloaded audio file. The download may have failed.".

(** Lines 152-173 *)
Definition file_detection (info : option Info) (output_path : Path)
  : M (Info * Path) :=
  match info with
  | None => raise (TypeError "argument of type 'NoneType' is not iterable")
  | Some info =>
      let* files := get_fs in
      match find_downloaded_file files info output_path with
      | Some p => ret (info, p)
      | None => raise (RuntimeError NOT_FOUND_MESSAGE)
      end
  end.

(** Lines 186-192 *)
Definition original_entry (downloaded_file : Path) : M (list FileEntry) :=
  let* present := path_exists downloaded_file in
  if present then
    let* st := path_stat downloaded_file in
    ret [ {| fe_name := pathlib.name downloaded_file;
             fe_type := "original";
             fe_size := human_readable_size (st_size st);
             fe_format :=
               PyStr.upper
                 (PyStr.remove_char "."%char (pathlib.suffix downloaded_file))
          |} ]
  else ret [].

Definition ffmpeg_cmd (downloaded_file mp3_path : Path) : list string :=
  ["ffmpeg"; "-y";
   "-i"; pathlib.str downloaded_file;
   "-vn";
   "-codec:a"; "libmp3lame";
   "-b:a"; "320k";
   "-ac"; "2";
   "-ar"; "44100";
   pathlib.str mp3_path].

Definition ENCODER_MISSING_MESSAGE : string :=
  "ffmpeg not found - MP3 conversion unavailable".

(** Lines 195-240, entered when [convert_to_mp3] holds. *)
Definition mp3_conversion (output_path downloaded_file : Path)
    (keep_original : bool) (files : list FileEntry) : M (list FileEntry) :=
  if negb (check_tool_exists "ffmpeg")
  then raise (RuntimeError ENCODER_MISSING_MESSAGE)
  else
    let mp3_path := joinpath output_path (pathlib.stem downloaded_file +:+ ".mp3") in
    let* stale := path_exists mp3_path in
    let* _ := (if stale then path_unlink mp3_path else ret tt) in
    let cmd := ffmpeg_cmd downloaded_file mp3_path in
    let* proc := call (EvSpawn cmd)
                 (fun fs0 => let '(p, fs1) := run_process env cmd fs0 in
                             (Returns p, fs1)) in
    if negb (returncode proc =? 0)
    then raise (RuntimeError ("MP3 conversion failed: " +:+ stderr proc))
    else
      let* made := path_exists mp3_path in
      let* files :=
        (if made then
           let* st := path_stat mp3_path in
           ret (files ++ [ {| fe_name := pathlib.name mp3_path;
                              fe_type := "mp3";
                              fe_size := human_readable_size (st_size st);
                              fe_format := "MP3" |} ])%list
         else ret files) in
      if negb keep_original then
        let* still := path_exists downloaded_file in
        if still then
          let* _ := path_unlink downloaded_file in
          ret (List.filter (fun f => negb (String.eqb (fe_type f) "original"))
                           files)
        else ret files
      else ret files.

Definition download_audio_from_youtube (url : string)
    (output_dir : option string) (convert_to_mp3 keep_original : bool)
    (progress_hook : option Hook) : M Results :=
  let output_path :=
    match output_dir with
    | None => DOWNLOADS_DIR
    | Some d => Path_of_str d
    end in
  let* _ := mkdir_parents output_path in
  let '(mbps, connections) := connection_plan in
  let* template := safe_outtmpl output_path in
  let ytdlp_opts := make_ytdlp_opts template connections progress_hook in
  let* info := extraction_stage ytdlp_opts url in
  let* located := file_detection info output_path in
  let '(info, downloaded_file) := located in
  let video_title := default "Unknown Title" (title info) in
  let* files := original_entry downloaded_file in
  let* files :=
    (if convert_to_mp3
     then mp3_conversion output_path downloaded_file keep_original files
     else ret files) in
  ret {| res_title := video_title; res_status := "success";
         res_files := files |}.

End Pipeline.

(** * Vocabulary of the properties *)

(** ** Speed estimator *)

(** Some call of the probe raises. *)
Definition speedtest_fails (st : Speedtest) : Prop :=
  (exists e, st_construct st = Raises e) \/
  (exists e, st_get_best_server st = Raises e) \/
  (exists e, st_download st = Raises e).

(** Every call of the probe returns. *)
Definition speedtest_succeeds (st : Speedtest) : Prop :=
  st_construct st = Returns tt /\
  st_get_best_server st = Returns tt /\
  st_download st = Returns tt.

Definition speedtest_unreachable : Speedtest :=
  {| st_construct := Returns tt;
     st_get_best_server := Raises (LibraryError "Unable to connect to servers");
     st_download := Returns tt;
     st_results_download := None |}.

Definition speedtest_72mbps : Speedtest :=
  {| st_construct := Returns tt;
     st_get_best_server := Returns tt;
     st_download := Returns tt;
     st_results_download := Some 72500000%Q |}.

(** ** Error classification *)

(** [marker] occurs in [msg]. *)
Definition occurs_in (marker msg : string) : Prop :=
  exists a b, msg = a +:+ marker +:+ b.

Definition error_with_all_markers : PyExc :=
  LibraryError "ERROR: Video unavailable. Private video. Sign in to confirm you're not a bot.".

Definition error_private_and_unavailable : PyExc :=
  LibraryError "ERROR: Video unavailable: Private video".

(** ** The stages of the pipeline *)

Definition output_path_of (output_dir : option string) : Path :=
  match output_dir with
  | None => DOWNLOADS_DIR
  | Some d => Path_of_str d
  end.

(** Lines 69-71 and 92: both directory creations. *)
Definition preparation (env : Collaborators) (output_path : Path)
  : M string :=
  let* _ := mkdir_parents env output_path in
  safe_outtmpl env output_path.

(** The options of the first extraction attempt. *)
Definition first_attempt_opts (env : Collaborators) (template : string)
    (progress_hook : option Hook) : YtdlpOpts :=
  make_ytdlp_opts env template (snd (connection_plan env)) progress_hook.

(** Lines 64-149: everything up to the extraction result. *)
Definition front (env : Collaborators) (url : string)
    (output_dir : option string) (progress_hook : option Hook)
  : M (option Info) :=
  let* template := preparation env (output_path_of output_dir) in
  extraction_stage env (first_attempt_opts env template progress_hook) url.

(** Lines 175-242: the summary for a located file. *)
Definition summarise (env : Collaborators) (info : Info)
    (downloaded_file output_path : Path)
    (convert_to_mp3 keep_original : bool) : M Results :=
  let* files := original_entry downloaded_file in
  let* files :=
    (if convert_to_mp3
     then mp3_conversion env output_path downloaded_file keep_original files
     else ret files) in
  ret {| res_title := default "Unknown Title" (title info);
         res_status := "success";
         res_files := files |}.

(** Lines 152-242 *)
Definition back (env : Collaborators) (info : option Info)
    (output_path : Path) (convert_to_mp3 keep_original : bool) : M Results :=
  let* located := file_detection info output_path in
  summarise env (fst located) (snd located) output_path
            convert_to_mp3 keep_original.

(** ** Extraction: one retry, then classification *)




(** ** Concrete runs *)

Module Scenario.

Definition url : string := "https://www.youtube.com/watch?v=abc".

Definition file_stat (mtime : Q) (size : N) : Stat :=
  {| st_isdir := false; st_mtime := mtime; st_size := size |}.

(** An output directory that already holds an older download and its
    MP3. *)
Definition stale_files : gmap Path Stat :=
  {[ ["downloads"; "old.webm"] := file_stat 100 1536;
     ["downloads"; "song.mp3"] := file_stat 150 4000000 ]}.

Definition start : World := {| fs := stale_files; trace := [] |}.

Definition empty_start : World := {| fs := ∅; trace := [] |}.

Definition song_info : Info :=
  {| requested_downloads :=
       Some [ {| rd_filepath := None |};
              {| rd_filepath := Some "downloads/song.webm" |} ];
     filepath := None;
     title := Some "Song" |}.

(** An extraction that downloads [downloads/song.webm]. *)
Definition extract_song (_ : YtdlpOpts) (_ : string) (files : gmap Path Stat)
  : PyResult (option Info) * gmap Path Stat :=
  (Returns (Some song_info),
   <[ ["downloads"; "song.webm"] := file_stat 200 5000000 ]> files).


(** An extraction that raises [first] on the quiet attempt and [second]
    on the verbose one. *)
Definition extract_raises (first second : string) (opts : YtdlpOpts)
    (_ : string) (files : gmap Path Stat)
  : PyResult (option Info) * gmap Path Stat :=
  (Raises (LibraryError (if quiet opts then first else second)), files).

(** An encoder that writes its last argument and exits with status 0. *)
Definition encoder_writes (cmd : list string) (files : gmap Path Stat)
  : CompletedProcess * gmap Path Stat :=
  ({| returncode := 0; stderr := "" |},
   <[ Path_of_str (List.last cmd "") := file_stat 300 7000000 ]> files).


Definition make_env (has_ffmpeg : bool)
    (extract : YtdlpOpts -> string -> gmap Path Stat
               -> PyResult (option Info) * gmap Path Stat)
    (run : list string -> gmap Path Stat
           -> CompletedProcess * gmap Path Stat) : Collaborators :=
  {| which := fun tool => has_ffmpeg && String.eqb tool "ffmpeg";
     speedtest := speedtest_72mbps;
     os_mkdir := fun _ files => (Returns tt, files);
     extract_info := extract;
     run_process := run |}.


Definition private_error : string :=
  "ERROR: [youtube] abc: Private video. Sign in if you've been granted access.".

End Scenario.

(** ** File detection *)



(** ** The summary and the conversion *)

(** The entry added for the located file (lines 187-192). *)
Definition original_file_entry (downloaded_file : Path) (st : Stat)
  : FileEntry :=
  {| fe_name := pathlib.name downloaded_file;
     fe_type := "original";
     fe_size := human_readable_size (st_size st);
     fe_format :=
       PyStr.upper (PyStr.remove_char "."%char (pathlib.suffix downloaded_file))
  |}.

(** The entry added for the converted file (lines 229-234). *)
Definition mp3_file_entry (mp3_path : Path) (st : Stat) : FileEntry :=
  {| fe_name := pathlib.name mp3_path;
     fe_type := "mp3";
     fe_size := human_readable_size (st_size st);
     fe_format := "MP3" |}.

(** The MP3 path of a located file (line 199). *)
Definition mp3_path_of (output_path downloaded_file : Path) : Path :=
  joinpath output_path (pathlib.stem downloaded_file +:+ ".mp3").

Definition drop_original (files : list FileEntry) : list FileEntry :=
  List.filter (fun f => negb (String.eqb (fe_type f) "original")) files.

(** The number of entries of a type in a file list. *)
Definition count_type (type : string) (files : list FileEntry) : nat :=
  length (List.filter (fun f => String.eqb (fe_type f) type) files).

Definition log (ev : Event) (w : World) (files : gmap Path Stat) : World :=
  {| fs := files; trace := trace w ++ [ev] |}.

(** Lines 227-240 as a function of the world the encoder left. *)
Definition after_encoding (mp3_path downloaded_file : Path)
    (keep_original : bool) (files : list FileEntry) (w : World)
  : PyResult (list FileEntry) * World :=
  let files1 :=
    match fs w !! mp3_path with
    | Some st => (files ++ [mp3_file_entry mp3_path st])%list
    | None => files
    end in
  if keep_original then (Returns files1, w)
  else
    match fs w !! downloaded_file with
    | None => (Returns files1, w)
    | Some st =>
        if st_isdir st
        then (Raises (IsADirectoryError (pathlib.str downloaded_file)),
              log (EvUnlink downloaded_file) w (fs w))
        else (Returns (drop_original files1),
              log (EvUnlink downloaded_file) w (delete downloaded_file (fs w)))
    end.

(** Lines 206-240 as a function of the world before the encoder runs. *)
Definition encoding (env : Collaborators) (mp3_path downloaded_file : Path)
    (keep_original : bool) (files : list FileEntry) (w : World)
  : PyResult (list FileEntry) * World :=
  let cmd := ffmpeg_cmd downloaded_file mp3_path in
  let '(proc, files') := run_process env cmd (fs w) in
  let w' := log (EvSpawn cmd) w files' in
  if returncode proc =? 0
  then after_encoding mp3_path downloaded_file keep_original files w'
  else (Raises (RuntimeError ("MP3 conversion failed: " +:+ stderr proc)), w').

(** ** Paths and their text *)

Fixpoint no_sep (s : string) : bool :=
  match s with
  | EmptyString => true
  | String a rest => negb (Ascii.eqb a "/"%char) && no_sep rest
  end.

(** A part of a path: free of separators and neither empty nor ["."]. *)
Definition wf_part (s : string) : Prop :=
  no_sep s = true /\ is_blank_part s = false.

(** A path as [Path_of_str] builds it: well-formed parts after an optional
    root. *)
Definition wf_path (p : Path) : Prop :=
  Forall wf_part p \/ exists body, p = "/" :: body /\ Forall wf_part body.

(** ** The reported file list *)

(** The world in which the encoder starts: the stale MP3, if there was
    one, is gone. *)
Definition before_encoding (mp3_path : Path) (w : World) : World :=
  match fs w !! mp3_path with
  | Some _ => log (EvUnlink mp3_path) w (delete mp3_path (fs w))
  | None => w
  end.

(** ** Conversion with the original discarded *)



(** ** A missing encoder *)

(** The claim C8 as the specification words it. *)
Definition missing_encoder_always_reported : Prop :=
  forall env url od k hook w,
    which env "ffmpeg" = false ->
    fst (download_audio_from_youtube env url od true k hook w)
    = Raises (RuntimeError ENCODER_MISSING_MESSAGE).

(** The events of a list that are encoder runs. *)
Definition spawns (evs : list Event) : list Event :=
  List.filter (fun ev => match ev with EvSpawn _ => true | _ => false end) evs.

(** ** Further vocabulary *)

(** The index into [size_names] that [human_readable_size] ends with. *)
Definition size_unit_index (size_bytes : N) : nat :=
  snd (scale_size (length size_names - 1) (inject_Z (Z.of_N size_bytes)) 0).

(** The unit of a size, by its range. *)
Definition unit_of_range (size_bytes : N) : nat :=
  if (size_bytes <? 1024)%N then 0%nat
  else if (size_bytes <? 1024 * 1024)%N then 1%nat
  else if (size_bytes <? 1024 * 1024 * 1024)%N then 2%nat
  else 3%nat.

(** ** Further concrete runs *)

Module Edge.

(** An environment with the given tools on the PATH and the given speed
    probe. *)
Definition make_env (tools : list string) (probe : Speedtest)
    (extract : YtdlpOpts -> string -> gmap Path Stat
               -> PyResult (option Info) * gmap Path Stat)
    (run : list string -> gmap Path Stat
           -> CompletedProcess * gmap Path Stat) : Collaborators :=
  {| which := fun tool => existsb (String.eqb tool) tools;
     speedtest := probe;
     os_mkdir := fun _ files => (Returns tt, files);
     extract_info := extract;
     run_process := run |}.

(** An extraction that swallows its error and returns [None]. *)
Definition extract_none (_ : YtdlpOpts) (_ : string) (files : gmap Path Stat)
  : PyResult (option Info) * gmap Path Stat :=
  (Returns None, files).

Definition mp3_info : Info :=
  {| requested_downloads :=
       Some [ {| rd_filepath := Some "downloads/talk.mp3" |} ];
     filepath := None;
     title := None |}.

(** An extraction whose best audio format is already an MP3. *)
Definition extract_mp3 (_ : YtdlpOpts) (_ : string) (files : gmap Path Stat)
  : PyResult (option Info) * gmap Path Stat :=
  (Returns (Some mp3_info),
   <[ ["downloads"; "talk.mp3"] := Scenario.file_stat 200 3000000 ]> files).

(** An encoder that exits with status 1 and changes nothing. *)
Definition encoder_fails (cmd : list string) (files : gmap Path Stat)
  : CompletedProcess * gmap Path Stat :=
  ({| returncode := 1; stderr := "No such file or directory" |}, files).

End Edge.

(** ** Failures and call sequences *)

Definition NONE_INFO_MESSAGE : string :=
  "argument of type 'NoneType' is not iterable".

(** The errors the conversion stage can raise. *)
Definition conversion_failure (e : PyExc) : Prop :=
  e = RuntimeError ENCODER_MISSING_MESSAGE \/
  (exists err, e = RuntimeError ("MP3 conversion failed: " +:+ err)) \/
  (exists q, e = IsADirectoryError (pathlib.str q)).

(** The errors the pipeline can raise once the extraction stage has
    returned. *)
Definition late_failure (e : PyExc) : Prop :=
  e = TypeError NONE_INFO_MESSAGE \/
  e = RuntimeError NOT_FOUND_MESSAGE \/
  conversion_failure e.

(** The external calls of the conversion stage for a located file [p], in
    order: the unlink of the MP3 path, the encoder, the unlink of [p];
    each at most once. *)
Definition conversion_calls (output_path p : Path)
    (us sp uo : list Event) : Prop :=
  In us [[]; [EvUnlink (mp3_path_of output_path p)]] /\
  In sp [[]; [EvSpawn (ffmpeg_cmd p (mp3_path_of output_path p))]] /\
  In uo [[]; [EvUnlink p]].

(** The external calls of the stages before the detection, in order: one
    or two directory creations, then at most two extraction calls, the
    second with ["quiet"] off. *)
Definition front_calls (output_path : Path) (url : string) (opts : YtdlpOpts)
    (mk ex : list Event) : Prop :=
  In mk [[EvMkdir output_path]; [EvMkdir output_path; EvMkdir output_path]] /\
  In ex [[]; [EvExtract opts url];
         [EvExtract opts url; EvExtract (set_quiet false opts) url]].

(** * Properties *)

(** ** Substring test *)

Lemma prefix_app (n h : string) :
  String.prefix n h = true <-> exists b, h = n +:+ b.
Proof.
  revert h. induction n as [|c n IH]; intros h; simpl.
  - split; [intros _; exists h; reflexivity | intros _; destruct h; reflexivity].
  - destruct h as [|d h].
    + split; [discriminate | intros [b Hb]; discriminate].
    + simpl. destruct (Ascii.ascii_dec c d) as [->|Hne].
      * rewrite IH. split; intros [b Hb]; exists b.
        -- rewrite Hb. reflexivity.
        -- change (String d h = String d (n +:+ b)) in Hb. congruence.
      * split; [discriminate | intros [b Hb]].
        change (String d h = String c (n +:+ b)) in Hb. congruence.
Qed.

Lemma str_contains_unfold (n h : string) :
  PyStr.str_contains n h =
  if String.prefix n h then true
  else match h with
       | EmptyString => false
       | String _ rest => PyStr.str_contains n rest
       end.
Proof. destruct h; reflexivity. Qed.

(** [str_contains] decides the substring relation. *)
Lemma str_contains_spec (n h : string) :
  PyStr.str_contains n h = true <-> exists a b, h = a +:+ n +:+ b.
Proof.
  induction h as [|d h IH]; rewrite str_contains_unfold;
    destruct (String.prefix n _) eqn:Hp.
  - split; [intros _ | reflexivity].
    apply prefix_app in Hp as [b Hb]. exists "", b. exact Hb.
  - split; [discriminate|]. intros (a & b & Hab).
    destruct a; [|discriminate].
    assert (String.prefix n "" = true) by (apply prefix_app; eauto).
    congruence.
  - split; [intros _ | reflexivity].
    apply prefix_app in Hp as [b Hb]. exists "", b. exact Hb.
  - rewrite IH. split.
    + intros (a & b & ->). exists (String d a), b. reflexivity.
    + intros (a & b & Hab). destruct a as [|c a].
      * assert (String.prefix n (String d h) = true)
          by (apply prefix_app; eauto).
        congruence.
      * change (String d h = String c (a +:+ n +:+ b)) in Hab.
        injection Hab as _ ->. eauto.
Qed.

(** ** Connection selector *)

Lemma Qle_bool_false (a b : Q) : Qle_bool a b = false <-> (b < a)%Q.
Proof.
  split.
  - intros H. apply Qnot_le_lt. intros Hle.
    apply Qle_bool_iff in Hle. congruence.
  - intros H. destruct (Qle_bool a b) eqn:E; [|reflexivity].
    apply Qle_bool_iff in E. exfalso. exact (Qlt_not_le _ _ H E).
Qed.

Lemma scan_thresholds_step (threshold conns : Z) (rest : list (Z * Z))
    (mbps : Q) :
  scan_thresholds ((threshold, conns) :: rest) mbps =
  if Qle_bool (inject_Z threshold) mbps then conns
  else scan_thresholds rest mbps.
Proof. reflexivity. Qed.

(** C3: the connection selector returns 16 from 100 Mbps up, 8 on
    [50,100), 4 on [10,50), 1 on [0,10) and 1 below zero; its result is
    never below 1. *)
Theorem choose_connections_table (mbps : Q) :
  ((100 <= mbps)%Q -> choose_connections mbps = 16) /\
  ((50 <= mbps)%Q -> (mbps < 100)%Q -> choose_connections mbps = 8) /\
  ((10 <= mbps)%Q -> (mbps < 50)%Q -> choose_connections mbps = 4) /\
  ((0 <= mbps)%Q -> (mbps < 10)%Q -> choose_connections mbps = 1) /\
  ((mbps < 0)%Q -> choose_connections mbps = 1) /\
  1 <= choose_connections mbps.
Proof.
  unfold choose_connections, CONNECTION_THRESHOLDS.
  rewrite !scan_thresholds_step.
  change (scan_thresholds [] mbps) with 1.
  destruct (Qle_bool (inject_Z 100) mbps) eqn:H100;
  destruct (Qle_bool (inject_Z 50) mbps) eqn:H50;
  destruct (Qle_bool (inject_Z 10) mbps) eqn:H10;
  destruct (Qle_bool (inject_Z 0) mbps) eqn:H0;
  repeat match goal with
         | H : Qle_bool _ _ = true |- _ => apply Qle_bool_iff in H
         | H : Qle_bool _ _ = false |- _ => apply Qle_bool_false in H
         end;
  change (inject_Z 100) with 100%Q in *;
  change (inject_Z 50) with 50%Q in *;
  change (inject_Z 10) with 10%Q in *;
  change (inject_Z 0) with 0%Q in *;
  repeat split; intros;
  first [ reflexivity | lia | exfalso; lra ].
Qed.

Lemma choose_connections_table_witness :
  choose_connections 250 = 16 /\
  choose_connections (151 # 2) = 8 /\
  choose_connections 10 = 4 /\
  choose_connections (1 # 3) = 1 /\
  choose_connections (-5) = 1.
Proof.
  destruct (choose_connections_table 250) as (H16 & _).
  destruct (choose_connections_table (151 # 2)) as (_ & H8 & _).
  destruct (choose_connections_table 10) as (_ & _ & H4 & _).
  destruct (choose_connections_table (1 # 3)) as (_ & _ & _ & H1 & _).
  destruct (choose_connections_table (-5)) as (_ & _ & _ & _ & Hneg & _).
  split; [apply H16; discriminate|].
  split; [apply H8; [discriminate | reflexivity]|].
  split; [apply H4; [discriminate | reflexivity]|].
  split; [apply H1; [discriminate | reflexivity]|].
  apply Hneg. reflexivity.
Defined.

(** ** Speed estimator *)

(** C9: the speed estimator never raises; it returns 10 when a call of the
    probe raises, and the measured bits per second divided by 1,000,000
    when the probe succeeds. *)
Theorem measure_download_speed_never_raises (st : Speedtest) :
  (exists v, measure_download_speed st = Returns v) /\
  (speedtest_fails st -> measure_download_speed st = Returns 10%Q) /\
  (speedtest_succeeds st ->
   forall bps, st_results_download st = Some bps ->
   measure_download_speed st = Returns (bps / 1000000)%Q).
Proof.
  unfold measure_download_speed, speedtest_fails, speedtest_succeeds.
  destruct (st_construct st) as [[]|e1];
  destruct (st_get_best_server st) as [[]|e2];
  destruct (st_download st) as [[]|e3];
  (split; [eexists; reflexivity|]); split;
  try (intros [[e He]|[[e He]|[e He]]]; first [discriminate | reflexivity]);
  try (intros (H1 & H2 & H3); discriminate);
  try (intros _; reflexivity).
  intros _ bps ->. reflexivity.
Qed.

Lemma measure_download_speed_never_raises_witness :
  measure_download_speed speedtest_unreachable = Returns 10%Q /\
  measure_download_speed speedtest_72mbps = Returns (72500000 / 1000000)%Q.
Proof.
  split.
  - apply (measure_download_speed_never_raises speedtest_unreachable).
    right; left. eexists. reflexivity.
  - apply (measure_download_speed_never_raises speedtest_72mbps).
    + repeat split.
    + reflexivity.
Defined.

(** ** Error classification *)

Lemma str_contains_false (n h : string) :
  PyStr.str_contains n h = false <-> ~ occurs_in n h.
Proof.
  unfold occurs_in. rewrite <- str_contains_spec.
  destruct (PyStr.str_contains n h); split; congruence.
Qed.

(** The four errors of the classification are pairwise different. *)
Lemma classification_messages_distinct (error_msg : string) :
  BOT_MESSAGE <> PRIVATE_MESSAGE /\
  BOT_MESSAGE <> UNAVAILABLE_MESSAGE /\
  PRIVATE_MESSAGE <> UNAVAILABLE_MESSAGE /\
  BOT_MESSAGE <> generic_message error_msg /\
  PRIVATE_MESSAGE <> generic_message error_msg /\
  UNAVAILABLE_MESSAGE <> generic_message error_msg.
Proof. repeat split; discriminate. Qed.

(** The classification as a decision list over the substring relation. *)
Lemma classify_failure_cases (e : PyExc) :
  let m := str_of_exc e in
  (occurs_in BOT_MARKER m ->
   classify_failure e = RuntimeError BOT_MESSAGE) /\
  (~ occurs_in BOT_MARKER m -> occurs_in PRIVATE_MARKER m ->
   classify_failure e = RuntimeError PRIVATE_MESSAGE) /\
  (~ occurs_in BOT_MARKER m -> ~ occurs_in PRIVATE_MARKER m ->
   occurs_in UNAVAILABLE_MARKER m ->
   classify_failure e = RuntimeError UNAVAILABLE_MESSAGE) /\
  (~ occurs_in BOT_MARKER m -> ~ occurs_in PRIVATE_MARKER m ->
   ~ occurs_in UNAVAILABLE_MARKER m ->
   classify_failure e = RuntimeError (generic_message m)).
Proof.
  intros m. unfold classify_failure. fold m.
  destruct (PyStr.str_contains BOT_MARKER m) eqn:Hb;
  destruct (PyStr.str_contains PRIVATE_MARKER m) eqn:Hp;
  destruct (PyStr.str_contains UNAVAILABLE_MARKER m) eqn:Hu;
  repeat match goal with
         | H : PyStr.str_contains _ _ = true |- _ =>
             apply str_contains_spec in H; fold (occurs_in) in H
         | H : PyStr.str_contains _ _ = false |- _ =>
             apply str_contains_false in H
         end;
  repeat split; intros; first [reflexivity | contradiction].
Qed.

(** C10: the markers are tested in the order bot verification, private
    video, video unavailable: a message with the bot marker is classified
    as bot verification whatever else it contains, and a message without
    it that has the private marker is classified as private video even
    when it also has the unavailable marker. *)
Theorem classify_failure_precedence (e : PyExc) :
  (occurs_in BOT_MARKER (str_of_exc e) ->
   classify_failure e = RuntimeError BOT_MESSAGE) /\
  (~ occurs_in BOT_MARKER (str_of_exc e) ->
   occurs_in PRIVATE_MARKER (str_of_exc e) ->
   classify_failure e = RuntimeError PRIVATE_MESSAGE) /\
  (~ occurs_in BOT_MARKER (str_of_exc e) ->
   ~ occurs_in PRIVATE_MARKER (str_of_exc e) ->
   occurs_in UNAVAILABLE_MARKER (str_of_exc e) ->
   classify_failure e = RuntimeError UNAVAILABLE_MESSAGE) /\
  (~ occurs_in BOT_MARKER (str_of_exc e) ->
   ~ occurs_in PRIVATE_MARKER (str_of_exc e) ->
   ~ occurs_in UNAVAILABLE_MARKER (str_of_exc e) ->
   classify_failure e = RuntimeError (generic_message (str_of_exc e))).
Proof. exact (classify_failure_cases e). Qed.

Lemma classify_failure_precedence_witness :
  classify_failure error_with_all_markers = RuntimeError BOT_MESSAGE /\
  classify_failure error_private_and_unavailable
  = RuntimeError PRIVATE_MESSAGE.
Proof.
  destruct (classify_failure_precedence error_with_all_markers)
    as (Hbot & _).
  destruct (classify_failure_precedence error_private_and_unavailable)
    as (_ & Hprivate & _).
  split.
  - apply Hbot. apply str_contains_spec. reflexivity.
  - apply Hprivate.
    + apply str_contains_false. reflexivity.
    + apply str_contains_spec. reflexivity.
Defined.

(** ** The stages of the pipeline *)

Lemma download_stages env url output_dir convert_to_mp3 keep_original hook w :
  download_audio_from_youtube env url output_dir convert_to_mp3
                              keep_original hook w =
  (let* info := front env url output_dir hook in
   back env info (output_path_of output_dir) convert_to_mp3 keep_original) w.
Proof.
  unfold download_audio_from_youtube, front, back, preparation,
    first_attempt_opts, summarise, bind.
  fold (output_path_of output_dir).
  destruct (mkdir_parents env (output_path_of output_dir) w) as [[[]|e] w1];
    [|reflexivity].
  destruct (connection_plan env) as [mbps connections]. simpl snd.
  destruct (safe_outtmpl env (output_path_of output_dir) w1)
    as [[template|e] w2]; [|reflexivity].
  destruct (extraction_stage env _ url w2) as [[info|e] w3]; [|reflexivity].
  destruct (file_detection info (output_path_of output_dir) w3)
    as [[[info' p]|e] w4]; reflexivity.
Qed.

(** The pipeline after a failed front. *)
Lemma download_front_raises env url output_dir c k hook w e w2 :
  front env url output_dir hook w = (Raises e, w2) ->
  download_audio_from_youtube env url output_dir c k hook w = (Raises e, w2).
Proof.
  intros H. rewrite download_stages. unfold bind. rewrite H. reflexivity.
Qed.

(** The pipeline after a front that returned. *)
Lemma download_front_returns env url output_dir c k hook w info w2 :
  front env url output_dir hook w = (Returns info, w2) ->
  download_audio_from_youtube env url output_dir c k hook w =
  back env info (output_path_of output_dir) c k w2.
Proof.
  intros H. rewrite download_stages. unfold bind. rewrite H. reflexivity.
Qed.

(** [file_detection] on an info dictionary. *)
Lemma file_detection_some info output_path w :
  file_detection (Some info) output_path w =
  match find_downloaded_file (fs w) info output_path with
  | Some p => (Returns (info, p), w)
  | None => (Raises (RuntimeError NOT_FOUND_MESSAGE), w)
  end.
Proof.
  unfold file_detection, bind, get_fs.
  destruct (find_downloaded_file (fs w) info output_path); reflexivity.
Qed.

(** A successful run went through every stage. *)
Lemma download_returns_inv env url output_dir c k hook w res w' :
  download_audio_from_youtube env url output_dir c k hook w
  = (Returns res, w') ->
  exists info w2 p,
    front env url output_dir hook w = (Returns (Some info), w2) /\
    find_downloaded_file (fs w2) info (output_path_of output_dir) = Some p /\
    summarise env info p (output_path_of output_dir) c k w2
    = (Returns res, w').
Proof.
  rewrite download_stages. unfold bind at 1.
  destruct (front env url output_dir hook w) as [[info|e] w2]; [|discriminate].
  unfold back, bind at 1.
  destruct info as [info|]; [|discriminate].
  rewrite file_detection_some.
  destruct (find_downloaded_file (fs w2) info (output_path_of output_dir))
    as [p|] eqn:Hfind; [|discriminate].
  simpl fst; simpl snd. intros H. exists info, w2, p. auto.
Qed.

(** ** Extraction: one retry, then classification *)



Lemma extraction_stage_first_returns env opts url w info fs1 :
  extract_info env opts url (fs w) = (Returns info, fs1) ->
  extraction_stage env opts url w =
  (Returns info, {| fs := fs1; trace := trace w ++ [EvExtract opts url] |}).
Proof.
  intros H. unfold extraction_stage, extract_with_retry, try_except,
    ydl_extract_info, call. rewrite H. reflexivity.
Qed.

Lemma extraction_stage_first_raises env opts url w e1 fs1 :
  extract_info env opts url (fs w) = (Raises e1, fs1) ->
  extraction_stage env opts url w =
  match extract_info env (set_quiet false opts) url fs1 with
  | (Returns info, fs2) =>
      (Returns info,
       {| fs := fs2;
          trace := trace w ++ [EvExtract opts url;
                               EvExtract (set_quiet false opts) url] |})
  | (Raises e2, fs2) =>
      (Raises (classify_failure e2),
       {| fs := fs2;
          trace := trace w ++ [EvExtract opts url;
                               EvExtract (set_quiet false opts) url] |})
  end.
Proof.
  intros H. unfold extraction_stage, extract_with_retry, try_except,
    ydl_extract_info, call, raise. rewrite H. simpl.
  destruct (extract_info env (set_quiet false opts) url fs1) as [[info|e2] fs2];
    rewrite <- app_assoc; reflexivity.
Qed.

Lemma front_after_preparation env url od hook w template w1 :
  preparation env (output_path_of od) w = (Returns template, w1) ->
  front env url od hook w =
  extraction_stage env (first_attempt_opts env template hook) url w1.
Proof. intros H. unfold front, bind. rewrite H. reflexivity. Qed.


(** ** Concrete runs *)


(** ** File detection *)

Lemma exists_is_Some (files : gmap Path Stat) (p : Path) :
  FS.exists_ files p = true <-> is_Some (files !! p).
Proof.
  unfold FS.exists_. destruct (files !! p) as [st|].
  - split; [eauto | reflexivity].
  - split; [discriminate | intros [st Hst]; discriminate].
Qed.

Lemma path_test_true (files : gmap Path Stat) (s : string) :
  PyStr.truthy s && FS.exists_ files (Path_of_str s) = true <->
  s <> "" /\ is_Some (files !! Path_of_str s).
Proof.
  rewrite andb_true_iff, exists_is_Some.
  destruct s; simpl; split; intros [H1 H2]; split;
    first [assumption | discriminate | reflexivity | congruence].
Qed.





Lemma first_existing_request_exists files reqs p :
  first_existing_request files reqs = Some p -> is_Some (files !! p).
Proof.
  induction reqs as [|req reqs IH]; simpl; [discriminate|].
  destruct (rd_filepath req) as [s|]; [|exact IH].
  destruct (PyStr.truthy s && FS.exists_ files (Path_of_str s)) eqn:E;
    [|exact IH].
  intros [= <-]. apply path_test_true in E. tauto.
Qed.

(** [max_by_mtime_from] returns an element of its input that no element
    exceeds. *)
Lemma max_by_mtime_from_spec (best : Path * Stat) (rest : list (Path * Stat)) :
  let m := max_by_mtime_from best rest in
  In m (best :: rest) /\
  forall e, In e (best :: rest) -> (st_mtime (snd e) <= st_mtime (snd m))%Q.
Proof.
  revert best. induction rest as [|e rest IH]; intros best; simpl.
  - split; [auto|]. intros e [<-|[]]. apply Qle_refl.
  - destruct (Qle_bool (st_mtime (snd e)) (st_mtime (snd best))) eqn:E.
    + apply Qle_bool_iff in E.
      destruct (IH best) as [Hin Hmax]. split.
      * destruct Hin as [<-|Hin]; auto.
      * intros x [<-|[<-|Hx]].
        -- apply Hmax. left. reflexivity.
        -- eapply Qle_trans; [exact E|]. apply Hmax. left. reflexivity.
        -- apply Hmax. right. exact Hx.
    + apply Qle_bool_false in E. apply Qlt_le_weak in E.
      destruct (IH e) as [Hin Hmax]. split.
      * destruct Hin as [<-|Hin]; auto.
      * intros x [<-|[<-|Hx]].
        -- eapply Qle_trans; [exact E|]. apply Hmax. left. reflexivity.
        -- apply Hmax. left. reflexivity.
        -- apply Hmax. right. exact Hx.
Qed.

Lemma glob_star_In (files : gmap Path Stat) (dir : Path) (e : Path * Stat) :
  In e (FS.glob_star files dir) <->
  files !! fst e = Some (snd e) /\ FS.is_child_of dir (fst e) = true.
Proof.
  unfold FS.glob_star. rewrite filter_In, <- list_elem_of_In.
  destruct e as [p st]. rewrite elem_of_map_to_list. reflexivity.
Qed.

(** The fallback of the detection: an entry of the output directory with
    the latest modification time. *)
Lemma latest_in_directory files dir :
  match max_by_mtime (FS.glob_star files dir) with
  | Some (p, st) =>
      files !! p = Some st /\ FS.is_child_of dir p = true /\
      forall q stq, files !! q = Some stq -> FS.is_child_of dir q = true ->
                    (st_mtime stq <= st_mtime st)%Q
  | None =>
      forall q, is_Some (files !! q) -> FS.is_child_of dir q = false
  end.
Proof.
  unfold max_by_mtime.
  destruct (FS.glob_star files dir) as [|e rest] eqn:Hglob.
  - intros q [stq Hq].
    destruct (FS.is_child_of dir q) eqn:Hc; [|reflexivity].
    assert (In (q, stq) (FS.glob_star files dir)) as Hin
      by (apply glob_star_In; auto).
    rewrite Hglob in Hin. destruct Hin.
  - destruct (max_by_mtime_from_spec e rest) as [Hin Hmax].
    destruct (max_by_mtime_from e rest) as [p st].
    rewrite <- Hglob in Hin, Hmax.
    apply glob_star_In in Hin as [Hp Hc]. simpl in Hp, Hc.
    split; [exact Hp|]. split; [exact Hc|].
    intros q stq Hq Hqc.
    apply (Hmax (q, stq)). apply glob_star_In. auto.
Qed.

Lemma find_downloaded_file_exists files info output_path p :
  find_downloaded_file files info output_path = Some p ->
  is_Some (files !! p).
Proof.
  unfold find_downloaded_file.
  destruct (match requested_downloads info with
            | Some reqs => first_existing_request files reqs
            | None => None
            end) as [p1|] eqn:Hreq.
  - intros [= <-]. destruct (requested_downloads info) as [reqs|];
      [|discriminate].
    eapply first_existing_request_exists; eauto.
  - destruct (filepath info) as [s|].
    + destruct (PyStr.truthy s && FS.exists_ files (Path_of_str s)) eqn:E.
      * intros [= <-]. apply path_test_true in E. tauto.
      * pose proof (latest_in_directory files output_path) as Hl.
        destruct (max_by_mtime _) as [[q st]|]; simpl; [|discriminate].
        intros [= <-]. destruct Hl as [Hq _]. eauto.
    + pose proof (latest_in_directory files output_path) as Hl.
      destruct (max_by_mtime _) as [[q st]|]; simpl; [|discriminate].
      intros [= <-]. destruct Hl as [Hq _]. eauto.
Qed.







(** ** The summary and the conversion *)

Lemma original_entry_run (downloaded_file : Path) (w : World) :
  original_entry downloaded_file w =
  match fs w !! downloaded_file with
  | Some st => (Returns [original_file_entry downloaded_file st], w)
  | None => (Returns [], w)
  end.
Proof.
  unfold original_entry, bind, path_exists, path_stat, FS.exists_.
  destruct (fs w !! downloaded_file) as [st|] eqn:Hst; simpl;
    rewrite ?Hst; reflexivity.
Qed.

Lemma mp3_conversion_run env output_path downloaded_file keep files w :
  mp3_conversion env output_path downloaded_file keep files w =
  let mp3_path := mp3_path_of output_path downloaded_file in
  if which env "ffmpeg" then
    match fs w !! mp3_path with
    | None => encoding env mp3_path downloaded_file keep files w
    | Some st =>
        if st_isdir st
        then (Raises (IsADirectoryError (pathlib.str mp3_path)),
              log (EvUnlink mp3_path) w (fs w))
        else encoding env mp3_path downloaded_file keep files
                      (log (EvUnlink mp3_path) w (delete mp3_path (fs w)))
    end
  else (Raises (RuntimeError ENCODER_MISSING_MESSAGE), w).
Proof.
  unfold mp3_conversion, check_tool_exists. fold (mp3_path_of output_path downloaded_file).
  set (mp3_path := mp3_path_of output_path downloaded_file). simpl.
  destruct (which env "ffmpeg"); [|reflexivity]. simpl.
  assert (forall w0 : World,
    (let* proc := call (EvSpawn (ffmpeg_cmd downloaded_file mp3_path))
                    (fun fs0 => let '(p, fs1) :=
                                  run_process env (ffmpeg_cmd downloaded_file mp3_path) fs0 in
                                (Returns p, fs1)) in
     if negb (returncode proc =? 0)
     then raise (RuntimeError ("MP3 conversion failed: " +:+ stderr proc))
     else
       let* made := path_exists mp3_path in
       let* files0 :=
         (if made then
            let* st := path_stat mp3_path in
            ret (files ++ [ {| fe_name := pathlib.name mp3_path;
                               fe_type := "mp3";
                               fe_size := human_readable_size (st_size st);
                               fe_format := "MP3" |} ])%list
          else ret files) in
       if negb keep then
         let* still := path_exists downloaded_file in
         if still then
           let* _ := path_unlink downloaded_file in
           ret (List.filter (fun f => negb (String.eqb (fe_type f) "original"))
                            files0)
         else ret files0
       else ret files0) w0
    = encoding env mp3_path downloaded_file keep files w0) as Henc.
  { intros w0. unfold encoding, after_encoding, bind, call, log.
    destruct (run_process env (ffmpeg_cmd downloaded_file mp3_path) (fs w0))
      as [proc files'].
    destruct (returncode proc =? 0); simpl; [|reflexivity].
    unfold path_exists, path_stat, FS.exists_, ret, path_unlink, call,
      FS.unlink. simpl.
    fold (mp3_file_entry mp3_path).
    destruct (files' !! mp3_path) as [st|] eqn:Hm; simpl;
      rewrite ?Hm; simpl;
      (destruct keep; simpl; [reflexivity|]);
      (destruct (files' !! downloaded_file) as [std|] eqn:Hd; simpl;
       rewrite ?Hd; simpl; [|reflexivity]);
      destruct (st_isdir std); reflexivity. }
  unfold bind at 1. unfold path_exists at 1, FS.exists_.
  destruct (fs w !! mp3_path) as [st|] eqn:Hst.
  - unfold bind at 1. unfold path_unlink, call, FS.unlink. rewrite Hst.
    destruct (st_isdir st); [reflexivity|]. apply Henc.
  - unfold bind at 1, ret at 1. apply Henc.
Qed.

(** ** Paths and their text *)

Lemma split_on_cons (a : ascii) (rest : string) :
  PyStr.split_on "/"%char (String a rest) =
  if Ascii.eqb a "/"%char then "" :: PyStr.split_on "/"%char rest
  else match PyStr.split_on "/"%char rest with
       | hd :: tl => String a hd :: tl
       | [] => [String a ""]
       end.
Proof. reflexivity. Qed.

Lemma split_on_no_sep (s : string) :
  no_sep s = true -> PyStr.split_on "/"%char s = [s].
Proof.
  induction s as [|a s IH]; [reflexivity|].
  simpl no_sep. rewrite andb_true_iff, negb_true_iff. intros [Ha Hs].
  rewrite split_on_cons, Ha, (IH Hs). reflexivity.
Qed.

Lemma split_on_app (s t : string) :
  no_sep s = true ->
  PyStr.split_on "/"%char (s +:+ String "/"%char t)
  = s :: PyStr.split_on "/"%char t.
Proof.
  induction s as [|a s IH]; [reflexivity|].
  simpl no_sep. rewrite andb_true_iff, negb_true_iff. intros [Ha Hs].
  change (String a s +:+ String "/"%char t)
    with (String a (s +:+ String "/"%char t)).
  rewrite split_on_cons, Ha, (IH Hs). reflexivity.
Qed.

Lemma split_on_parts (s : string) :
  Forall (fun part => no_sep part = true) (PyStr.split_on "/"%char s).
Proof.
  induction s as [|a s IH]; [repeat constructor|].
  rewrite split_on_cons. destruct (Ascii.eqb a "/"%char) eqn:Ha.
  - constructor; [reflexivity | exact IH].
  - destruct (PyStr.split_on "/"%char s) as [|hd tl].
    + repeat constructor. simpl. rewrite Ha. reflexivity.
    + inversion IH as [|? ? Hhd Htl]; subst. constructor; [|exact Htl].
      simpl. rewrite Ha, Hhd. reflexivity.
Qed.

Lemma join_cons (p q : string) (rest : list string) :
  PyStr.join "/" (p :: q :: rest)
  = p +:+ String "/"%char (PyStr.join "/" (q :: rest)).
Proof. reflexivity. Qed.

Lemma split_on_join (body : list string) :
  Forall wf_part body -> body <> [] ->
  PyStr.split_on "/"%char (PyStr.join "/" body) = body.
Proof.
  induction 1 as [|p body [Hp _] Hbody IH]; [congruence|]. intros _.
  destruct body as [|q body].
  - apply split_on_no_sep. exact Hp.
  - rewrite join_cons, (split_on_app _ _ Hp), IH by discriminate.
    reflexivity.
Qed.

Lemma filter_wf_parts (body : list string) :
  Forall wf_part body ->
  List.filter (fun c => negb (is_blank_part c)) body = body.
Proof.
  induction 1 as [|p body [_ Hp] Hbody IH]; [reflexivity|].
  simpl. rewrite Hp, IH. reflexivity.
Qed.

Lemma wf_part_not_rooted (p : string) (t : string) :
  wf_part p -> String.prefix "/" (p +:+ t) = false.
Proof.
  intros [Hsep Hblank]. destruct p as [|a p]; [discriminate Hblank|].
  simpl in Hsep. apply andb_true_iff in Hsep as [Ha _].
  apply negb_true_iff in Ha.
  destruct (String.prefix "/" (String a p +:+ t)) eqn:Hpre; [|reflexivity].
  apply prefix_app in Hpre as [b Hb].
  change (String a (p +:+ t) = String "/"%char b) in Hb.
  injection Hb as -> _. discriminate Ha.
Qed.

Lemma string_app_empty_r (s : string) : s +:+ "" = s.
Proof.
  induction s as [|a s IH]; [reflexivity|].
  change (String a s +:+ "") with (String a (s +:+ "")).
  rewrite IH. reflexivity.
Qed.

Lemma join_not_rooted (body : list string) :
  Forall wf_part body -> body <> [] ->
  String.prefix "/" (PyStr.join "/" body) = false.
Proof.
  intros Hbody Hne. destruct Hbody as [|p body Hp Hbody]; [congruence|].
  destruct body as [|q body].
  - change (String.prefix "/" p = false).
    rewrite <- (string_app_empty_r p). apply wf_part_not_rooted. exact Hp.
  - rewrite join_cons. apply wf_part_not_rooted. exact Hp.
Qed.

Lemma wf_part_not_root (p : string) : wf_part p -> String.eqb p "/" = false.
Proof.
  intros [Hsep _]. destruct (String.eqb_spec p "/") as [->|]; [|reflexivity].
  discriminate Hsep.
Qed.

(** Text and parts of a well-formed path determine each other. *)
Lemma Path_of_str_str (p : Path) : wf_path p -> Path_of_str (pathlib.str p) = p.
Proof.
  intros [Hrel|(body & -> & Hbody)].
  - destruct p as [|r rest]; [reflexivity|].
    unfold pathlib.str.
    rewrite (wf_part_not_root r) by (inversion Hrel; assumption).
    unfold Path_of_str.
    rewrite (join_not_rooted _ Hrel) by discriminate.
    rewrite (split_on_join _ Hrel) by discriminate.
    apply filter_wf_parts. exact Hrel.
  - change (pathlib.str ("/" :: body))
      with (String "/"%char (PyStr.join "/" body)).
    unfold Path_of_str.
    assert (String.prefix "/" (String "/"%char (PyStr.join "/" body)) = true)
      as -> by (apply prefix_app; eexists; reflexivity).
    rewrite split_on_cons.
    change (Ascii.eqb "/"%char "/"%char) with true. cbv iota.
    change (List.filter (fun c => negb (is_blank_part c))
              ("" :: PyStr.split_on "/"%char (PyStr.join "/" body)))
      with (List.filter (fun c => negb (is_blank_part c))
              (PyStr.split_on "/"%char (PyStr.join "/" body))).
    destruct body as [|q body]; [reflexivity|].
    rewrite (split_on_join _ Hbody) by discriminate.
    rewrite (filter_wf_parts _ Hbody). reflexivity.
Qed.

Lemma Path_of_str_wf (s : string) : wf_path (Path_of_str s).
Proof.
  assert (Forall wf_part
            (List.filter (fun c => negb (is_blank_part c))
                         (PyStr.split_on "/"%char s))) as Hbody.
  { pose proof (split_on_parts s) as Hparts.
    induction Hparts as [|part parts Hpart Hparts IH]; [constructor|].
    simpl. destruct (is_blank_part part) eqn:Hb; simpl; [exact IH|].
    constructor; [split; assumption | exact IH]. }
  unfold Path_of_str. destruct (String.prefix "/" s).
  - right. eexists. split; [reflexivity | exact Hbody].
  - left. exact Hbody.
Qed.

Lemma Path_of_str_relative (s : string) :
  String.prefix "/" s = false -> Forall wf_part (Path_of_str s).
Proof.
  intros Hrel. pose proof (Path_of_str_wf s) as Hwf.
  unfold Path_of_str in *. rewrite Hrel in *.
  destruct Hwf as [H|(body & Heq & Hbody)]; [exact H|].
  rewrite Heq. constructor; [|exact Hbody].
  exfalso.
  assert (In "/" (PyStr.split_on "/"%char s)) as Hin.
  { eapply (proj1 (filter_In _ _ _)). rewrite Heq. left. reflexivity. }
  pose proof (split_on_parts s) as Hparts.
  rewrite Forall_forall in Hparts.
  apply list_elem_of_In in Hin. specialize (Hparts _ Hin). discriminate Hparts.
Qed.

Lemma joinpath_wf (p : Path) (s : string) :
  wf_path p -> wf_path (joinpath p s).
Proof.
  intros Hp. unfold joinpath. destruct (String.prefix "/" s) eqn:Hs.
  - apply Path_of_str_wf.
  - pose proof (Path_of_str_relative s Hs) as Hq.
    destruct Hp as [Hp|(body & -> & Hbody)].
    + left. apply Forall_app. auto.
    + right. exists (body ++ Path_of_str s)%list. split; [reflexivity|].
      apply Forall_app. auto.
Qed.

Lemma output_path_wf (output_dir : option string) :
  wf_path (output_path_of output_dir).
Proof. destruct output_dir; apply Path_of_str_wf. Qed.

Lemma mp3_path_roundtrip (output_dir : option string) (downloaded_file : Path) :
  let mp3_path := mp3_path_of (output_path_of output_dir) downloaded_file in
  Path_of_str (List.last (ffmpeg_cmd downloaded_file mp3_path) "") = mp3_path.
Proof.
  intros mp3_path. change (Path_of_str (pathlib.str mp3_path) = mp3_path).
  apply Path_of_str_str, joinpath_wf, output_path_wf.
Qed.

(** ** The reported file list *)

Lemma summarise_run env info p output_path c k w st :
  fs w !! p = Some st ->
  summarise env info p output_path c k w =
  if c then
    match mp3_conversion env output_path p k [original_file_entry p st] w with
    | (Returns files, w') =>
        (Returns {| res_title := default "Unknown Title" (title info);
                    res_status := "success"; res_files := files |}, w')
    | (Raises e, w') => (Raises e, w')
    end
  else
    (Returns {| res_title := default "Unknown Title" (title info);
                res_status := "success";
                res_files := [original_file_entry p st] |}, w).
Proof.
  intros Hst. unfold summarise, bind. rewrite original_entry_run, Hst.
  destruct c; [|reflexivity].
  destruct (mp3_conversion env output_path p k _ w) as [[files|e] w'];
    reflexivity.
Qed.

(** A successful run, seen from its summary stage. *)
Lemma download_returns_summary env url od c k hook w res w' :
  download_audio_from_youtube env url od c k hook w = (Returns res, w') ->
  exists info w2 p st,
    front env url od hook w = (Returns (Some info), w2) /\
    find_downloaded_file (fs w2) info (output_path_of od) = Some p /\
    fs w2 !! p = Some st /\
    summarise env info p (output_path_of od) c k w2 = (Returns res, w').
Proof.
  intros H. apply download_returns_inv in H as (info & w2 & p & Hf & Hp & Hs).
  destruct (find_downloaded_file_exists _ _ _ _ Hp) as [st Hst].
  exists info, w2, p, st. auto.
Qed.

Lemma encoding_returns_inv env mp3_path p k files w files' w' :
  encoding env mp3_path p k files w = (Returns files', w') ->
  exists proc fs1,
    run_process env (ffmpeg_cmd p mp3_path) (fs w) = (proc, fs1) /\
    returncode proc = 0 /\
    after_encoding mp3_path p k files
                   (log (EvSpawn (ffmpeg_cmd p mp3_path)) w fs1)
    = (Returns files', w').
Proof.
  unfold encoding.
  destruct (run_process env (ffmpeg_cmd p mp3_path) (fs w)) as [proc fs1].
  destruct (returncode proc =? 0) eqn:Hrc; [|discriminate].
  intros H. exists proc, fs1. apply Z.eqb_eq in Hrc. auto.
Qed.

Lemma before_encoding_clear (mp3_path : Path) (w : World) :
  fs (before_encoding mp3_path w) !! mp3_path = None.
Proof.
  unfold before_encoding. destruct (fs w !! mp3_path) eqn:H; [|exact H].
  apply lookup_delete_eq.
Qed.


Lemma mp3_conversion_returns_inv env output_path p k files w files' w' :
  mp3_conversion env output_path p k files w = (Returns files', w') ->
  which env "ffmpeg" = true /\
  encoding env (mp3_path_of output_path p) p k files
           (before_encoding (mp3_path_of output_path p) w)
  = (Returns files', w').
Proof.
  rewrite mp3_conversion_run. cbv zeta. unfold before_encoding.
  destruct (which env "ffmpeg"); [|discriminate].
  destruct (fs w !! mp3_path_of output_path p) as [st|]; [|auto].
  destruct (st_isdir st); [discriminate | auto].
Qed.

Lemma after_encoding_counts mp3_path p k st w files' w' :
  after_encoding mp3_path p k [original_file_entry p st] w
  = (Returns files', w') ->
  (count_type "original" files' <= 1)%nat /\
  (count_type "mp3" files' <= 1)%nat.
Proof.
  unfold after_encoding.
  destruct (fs w !! mp3_path) as [stm|]; destruct k;
    try (intros [= <- _]; cbv; lia);
    (destruct (fs w !! p) as [stp|]; [destruct (st_isdir stp)|]);
    first [discriminate | intros [= <- _]; cbv; lia].
Qed.

(** C5: a successful run without conversion reports exactly one file, and
    it is of type "original". *)
Theorem no_conversion_reports_the_original env url od k hook w res w' :
  download_audio_from_youtube env url od false k hook w = (Returns res, w') ->
  exists entry, res_files res = [entry] /\ fe_type entry = "original".
Proof.
  intros H.
  apply download_returns_summary in H
    as (info & w2 & p & st & _ & _ & Hst & Hsum).
  rewrite (summarise_run _ _ _ _ _ _ _ _ Hst) in Hsum.
  injection Hsum as <- _.
  exists (original_file_entry p st). split; reflexivity.
Qed.

Lemma no_conversion_reports_the_original_witness :
  let env := Scenario.make_env true Scenario.extract_song
                               Scenario.encoder_writes in
  let res := {| res_title := "Song"; res_status := "success";
                res_files :=
                  [ {| fe_name := "song.webm"; fe_type := "original";
                       fe_size := "4.77 MB"; fe_format := "WEBM" |} ] |} in
  fst (download_audio_from_youtube env Scenario.url None false true None
                                   Scenario.start) = Returns res /\
  exists entry, res_files res = [entry] /\ fe_type entry = "original".
Proof.
  intros env res. split; [vm_compute; reflexivity|].
  apply (no_conversion_reports_the_original
           env Scenario.url None true None Scenario.start res
           (snd (download_audio_from_youtube env Scenario.url None false true
                                             None Scenario.start))).
  vm_compute. reflexivity.
Defined.

(** C6: whatever the flags, a successful run reports at most one
    "original" entry and at most one "mp3" entry. *)
Theorem at_most_one_entry_of_each_type env url od c k hook w res w' :
  download_audio_from_youtube env url od c k hook w = (Returns res, w') ->
  (count_type "original" (res_files res) <= 1)%nat /\
  (count_type "mp3" (res_files res) <= 1)%nat.
Proof.
  intros H.
  apply download_returns_summary in H
    as (info & w2 & p & st & _ & _ & Hst & Hsum).
  rewrite (summarise_run _ _ _ _ _ _ _ _ Hst) in Hsum.
  destruct c.
  - destruct (mp3_conversion env (output_path_of od) p k _ w2)
      as [[files|e] w3] eqn:Hconv; [|discriminate].
    injection Hsum as <- _. simpl res_files.
    apply mp3_conversion_returns_inv in Hconv as [_ Henc].
    apply encoding_returns_inv in Henc as (proc & fs1 & _ & _ & Hafter).
    eapply after_encoding_counts. exact Hafter.
  - injection Hsum as <- _. cbv. lia.
Qed.

Lemma at_most_one_entry_of_each_type_witness :
  let env := Scenario.make_env true Scenario.extract_song
                               Scenario.encoder_writes in
  let res := {| res_title := "Song"; res_status := "success";
                res_files :=
                  [ {| fe_name := "song.webm"; fe_type := "original";
                       fe_size := "4.77 MB"; fe_format := "WEBM" |};
                    {| fe_name := "song.mp3"; fe_type := "mp3";
                       fe_size := "6.68 MB"; fe_format := "MP3" |} ] |} in
  fst (download_audio_from_youtube env Scenario.url None true true None
                                   Scenario.start) = Returns res /\
  (count_type "original" (res_files res) <= 1)%nat /\
  (count_type "mp3" (res_files res) <= 1)%nat.
Proof.
  intros env res. split; [vm_compute; reflexivity|].
  apply (at_most_one_entry_of_each_type
           env Scenario.url None true true None Scenario.start res
           (snd (download_audio_from_youtube env Scenario.url None true true
                                             None Scenario.start))).
  vm_compute. reflexivity.
Defined.

(** ** Conversion with the original discarded *)





(** ** Stale MP3 files *)







(** ** A missing encoder *)

(** Without the encoder, a private video still fails as a private
    video: the extraction comes first. *)
Lemma missing_encoder_hidden_by_extraction_failure :
  ~ missing_encoder_always_reported.
Proof.
  intros Hclaim.
  specialize (Hclaim (Scenario.make_env false
                        (Scenario.extract_raises Scenario.private_error
                                                 Scenario.private_error)
                        Scenario.encoder_writes)
                     Scenario.url None true None Scenario.start eq_refl).
  vm_compute in Hclaim. discriminate Hclaim.
Qed.

Lemma front_trace env url od hook w r w2 :
  front env url od hook w = (r, w2) ->
  exists evs, trace w2 = (trace w ++ evs)%list /\ spawns evs = [].
Proof.
  unfold front, preparation, safe_outtmpl, mkdir_parents, extraction_stage,
    extract_with_retry, try_except, ydl_extract_info, call, bind, ret, raise.
  destruct (os_mkdir env (output_path_of od) (fs w)) as [[[]|e1] fs1]; simpl.
  - destruct (os_mkdir env (output_path_of od) fs1) as [[[]|e2] fs2]; simpl.
    + destruct (extract_info env _ url fs2) as [[i|e3] fs3]; simpl.
      * intros [= <- <-]. simpl. rewrite <- !app_assoc.
        eexists. split; reflexivity.
      * destruct (extract_info env _ url fs3) as [[i|e4] fs4]; simpl;
          intros [= <- <-]; simpl; rewrite <- !app_assoc;
          eexists; split; reflexivity.
    + intros [= <- <-]. simpl. rewrite <- !app_assoc.
      eexists. split; reflexivity.
  - intros [= <- <-]. simpl. eexists. split; reflexivity.
Qed.

(** C8, amended: with conversion requested and the encoder absent, the
    call fails with the "encoder unavailable" error as soon as a file has
    been located after a successful extraction, in the world the
    extraction left; whatever happens, the call does not succeed and no
    encoder process is spawned. *)
Theorem missing_encoder_fails_before_spawning env url od k hook w :
  which env "ffmpeg" = false ->
  (forall info w2 p,
     front env url od hook w = (Returns (Some info), w2) ->
     find_downloaded_file (fs w2) info (output_path_of od) = Some p ->
     download_audio_from_youtube env url od true k hook w
     = (Raises (RuntimeError ENCODER_MISSING_MESSAGE), w2)) /\
  (forall r w',
     download_audio_from_youtube env url od true k hook w = (r, w') ->
     (exists e, r = Raises e) /\
     exists evs, trace w' = (trace w ++ evs)%list /\ spawns evs = []).
Proof.
  intros Hff.
  assert (forall info w2 p,
     front env url od hook w = (Returns (Some info), w2) ->
     find_downloaded_file (fs w2) info (output_path_of od) = Some p ->
     download_audio_from_youtube env url od true k hook w
     = (Raises (RuntimeError ENCODER_MISSING_MESSAGE), w2)) as Hmissing.
  { intros info w2 p Hfront Hfind.
    destruct (find_downloaded_file_exists _ _ _ _ Hfind) as [st Hst].
    rewrite (download_front_returns _ _ _ _ _ _ _ _ _ Hfront).
    unfold back, bind. rewrite file_detection_some, Hfind.
    simpl fst; simpl snd.
    rewrite (summarise_run _ _ _ _ _ _ _ _ Hst), mp3_conversion_run.
    cbv zeta. rewrite Hff. reflexivity. }
  split; [exact Hmissing|].
  intros r w' Hrun.
  destruct (front env url od hook w) as [[info|e] w2] eqn:Hfront.
  - destruct (front_trace _ _ _ _ _ _ _ Hfront) as (evs & Htrace & Hspawn).
    rewrite (download_front_returns _ _ _ _ _ _ _ _ _ Hfront) in Hrun.
    destruct info as [info|].
    + unfold back, bind in Hrun. rewrite file_detection_some in Hrun.
      destruct (find_downloaded_file (fs w2) info (output_path_of od))
        as [p|] eqn:Hfind.
      * pose proof (Hmissing info w2 p eq_refl Hfind) as Hm.
        rewrite (download_front_returns _ _ _ _ _ _ _ _ _ Hfront) in Hm.
        unfold back, bind in Hm. rewrite file_detection_some, Hfind in Hm.
        rewrite Hm in Hrun. injection Hrun as <- <-. eauto.
      * injection Hrun as <- <-. eauto.
    + injection Hrun as <- <-. eauto.
  - destruct (front_trace _ _ _ _ _ _ _ Hfront) as (evs & Htrace & Hspawn).
    rewrite (download_front_raises _ _ _ _ _ _ _ _ _ Hfront) in Hrun.
    injection Hrun as <- <-. eauto.
Qed.

Lemma missing_encoder_fails_before_spawning_witness :
  let env := Scenario.make_env false Scenario.extract_song
                               Scenario.encoder_writes in
  exists w2,
    download_audio_from_youtube env Scenario.url None true false None
                                Scenario.start
    = (Raises (RuntimeError ENCODER_MISSING_MESSAGE), w2) /\
    spawns (trace w2) = [].
Proof.
  intros env.
  destruct (missing_encoder_fails_before_spawning
              env Scenario.url None false None Scenario.start eq_refl)
    as [Hmissing _].
  eexists. split.
  - apply (Hmissing Scenario.song_info _ ["downloads"; "song.webm"]);
      reflexivity.
  - reflexivity.
Defined.


(** * Further properties *)

(** ** Size formatting *)

Lemma Qle_bool_1024 (z : Z) : Qle_bool 1024 (inject_Z z) = (1024 <=? z).
Proof.
  unfold Qle_bool, inject_Z. simpl Qnum. simpl Qden.
  f_equal; lia.
Qed.

Lemma Qle_bool_1024_div (z : Z) :
  Qle_bool 1024 (inject_Z z / 1024) = (1024 * 1024 <=? z).
Proof.
  destruct (Qle_bool 1024 (inject_Z z / 1024)) eqn:E; symmetry.
  - apply Qle_bool_iff in E. unfold Qle in E. simpl in E.
    apply Z.leb_le. lia.
  - apply Qle_bool_false in E. unfold Qlt in E. simpl in E.
    apply Z.leb_gt. lia.
Qed.

Lemma Qle_bool_1024_div_div (z : Z) :
  Qle_bool 1024 (inject_Z z / 1024 / 1024) = (1024 * 1024 * 1024 <=? z).
Proof.
  destruct (Qle_bool 1024 (inject_Z z / 1024 / 1024)) eqn:E; symmetry.
  - apply Qle_bool_iff in E. unfold Qle in E. simpl in E.
    apply Z.leb_le. lia.
  - apply Qle_bool_false in E. unfold Qlt in E. simpl in E.
    apply Z.leb_gt. lia.
Qed.

Lemma scale_size_ranges (z : Z) :
  scale_size 3 (inject_Z z) 0 =
  if z <? 1024 then (inject_Z z, 0%nat)
  else if z <? 1024 * 1024 then ((inject_Z z / 1024)%Q, 1%nat)
  else if z <? 1024 * 1024 * 1024
       then ((inject_Z z / 1024 / 1024)%Q, 2%nat)
  else ((inject_Z z / 1024 / 1024 / 1024)%Q, 3%nat).
Proof.
  cbn [scale_size].
  rewrite Qle_bool_1024, Qle_bool_1024_div, Qle_bool_1024_div_div.
  rewrite !Z.ltb_antisym.
  destruct (1024 <=? z) eqn:H1; [|reflexivity].
  destruct (1024 * 1024 <=? z) eqn:H2; [|reflexivity].
  destruct (1024 * 1024 * 1024 <=? z) eqn:H3; reflexivity.
Qed.

Lemma size_unit_index_range (n : N) : size_unit_index n = unit_of_range n.
Proof.
  unfold size_unit_index, unit_of_range.
  change (length size_names - 1)%nat with 3%nat.
  rewrite scale_size_ranges.
  destruct (n <? 1024)%N eqn:H1;
    [apply N.ltb_lt in H1 | apply N.ltb_ge in H1].
  { assert ((Z.of_N n <? 1024) = true) as -> by (apply Z.ltb_lt; lia).
    reflexivity. }
  assert ((Z.of_N n <? 1024) = false) as -> by (apply Z.ltb_ge; lia).
  destruct (n <? 1024 * 1024)%N eqn:H2;
    [apply N.ltb_lt in H2 | apply N.ltb_ge in H2].
  { assert ((Z.of_N n <? 1024 * 1024) = true) as -> by (apply Z.ltb_lt; lia).
    reflexivity. }
  assert ((Z.of_N n <? 1024 * 1024) = false) as -> by (apply Z.ltb_ge; lia).
  destruct (n <? 1024 * 1024 * 1024)%N eqn:H3;
    [apply N.ltb_lt in H3 | apply N.ltb_ge in H3].
  { assert ((Z.of_N n <? 1024 * 1024 * 1024) = true) as ->
      by (apply Z.ltb_lt; lia).
    reflexivity. }
  assert ((Z.of_N n <? 1024 * 1024 * 1024) = false) as ->
    by (apply Z.ltb_ge; lia).
  reflexivity.
Qed.

(** X1: a positive size is shown in bytes below 1024, in KB below 1024^2,
    in MB below 1024^3 and in GB from there on, however large it is; the
    number shown is the size divided by 1024 once per unit step. *)
Theorem human_readable_size_by_range (n : N) :
  let b := inject_Z (Z.of_N n) in
  ((0 < n)%N -> (n < 1024)%N ->
   human_readable_size n = format_2f b +:+ " B") /\
  ((1024 <= n)%N -> (n < 1024 * 1024)%N ->
   human_readable_size n = format_2f (b / 1024) +:+ " KB") /\
  ((1024 * 1024 <= n)%N -> (n < 1024 * 1024 * 1024)%N ->
   human_readable_size n = format_2f (b / 1024 / 1024) +:+ " MB") /\
  ((1024 * 1024 * 1024 <= n)%N ->
   human_readable_size n = format_2f (b / 1024 / 1024 / 1024) +:+ " GB").
Proof.
  intros b. unfold human_readable_size.
  change (length size_names - 1)%nat with 3%nat.
  fold b. unfold b. rewrite scale_size_ranges.
  repeat split; intros;
    (assert ((n =? 0)%N = false) as -> by (apply N.eqb_neq; lia));
    repeat match goal with
    | |- context [Z.of_N n <? ?c] =>
        first [ assert ((Z.of_N n <? c) = true) as -> by (apply Z.ltb_lt; lia)
              | assert ((Z.of_N n <? c) = false) as -> by (apply Z.ltb_ge; lia) ]
    end; reflexivity.
Qed.

Lemma human_readable_size_by_range_witness :
  human_readable_size 1536 = "1.50 KB" /\
  human_readable_size 5000000000000 = "4656.61 GB".
Proof.
  destruct (human_readable_size_by_range 1536) as (_ & Hkb & _).
  destruct (human_readable_size_by_range 5000000000000) as (_ & _ & _ & Hgb).
  split.
  - rewrite Hkb; [reflexivity | discriminate | reflexivity].
  - rewrite Hgb; [reflexivity | discriminate].
Defined.

(** X2: the unit never gets smaller as the size grows. *)
Theorem size_unit_monotone (n m : N) :
  (n <= m)%N -> (size_unit_index n <= size_unit_index m)%nat.
Proof.
  intros Hnm. rewrite !size_unit_index_range. unfold unit_of_range.
  repeat match goal with
         | |- context [(?a <? ?c)%N] =>
             let H := fresh in
             destruct (a <? c)%N eqn:H;
             [apply N.ltb_lt in H | apply N.ltb_ge in H]
         end; lia.
Qed.

Lemma size_unit_monotone_witness :
  (size_unit_index 1023 <= size_unit_index 1024)%nat.
Proof. apply (size_unit_monotone 1023 1024). discriminate. Defined.

(** ** The connection plan and the download helper *)

Lemma measure_download_speed_returns (st : Speedtest) :
  exists mbps, measure_download_speed st = Returns mbps.
Proof.
  unfold measure_download_speed.
  destruct (st_construct st); [|eauto].
  destruct (st_get_best_server st); [|eauto].
  destruct (st_download st); eauto.
Qed.

Lemma measure_download_speed_fallback (st : Speedtest) :
  speedtest_fails st -> measure_download_speed st = Returns 10%Q.
Proof.
  unfold measure_download_speed, speedtest_fails.
  destruct (st_construct st) as [[]|e1]; [|reflexivity].
  destruct (st_get_best_server st) as [[]|e2]; [|reflexivity].
  destruct (st_download st) as [[]|e3]; [|reflexivity].
  intros [[e He]|[[e He]|[e He]]]; discriminate.
Qed.

Lemma choose_connections_values (mbps : Q) :
  In (choose_connections mbps) [1; 4; 8; 16].
Proof.
  unfold choose_connections, CONNECTION_THRESHOLDS.
  rewrite !scan_thresholds_step. change (scan_thresholds [] mbps) with 1.
  destruct (Qle_bool (inject_Z 100) mbps);
    [right; right; right; left; reflexivity|].
  destruct (Qle_bool (inject_Z 50) mbps); [right; right; left; reflexivity|].
  destruct (Qle_bool (inject_Z 10) mbps); [right; left; reflexivity|].
  destruct (Qle_bool (inject_Z 0) mbps); left; reflexivity.
Qed.

Lemma several_connections_from_10 (mbps : Q) :
  (1 <? choose_connections mbps) = Qle_bool 10 mbps.
Proof.
  unfold choose_connections, CONNECTION_THRESHOLDS.
  rewrite !scan_thresholds_step. change (scan_thresholds [] mbps) with 1.
  change (inject_Z 10) with 10%Q.
  destruct (Qle_bool (inject_Z 100) mbps) eqn:H100;
  destruct (Qle_bool (inject_Z 50) mbps) eqn:H50;
  destruct (Qle_bool 10 mbps) eqn:H10;
  destruct (Qle_bool (inject_Z 0) mbps) eqn:H0;
  try reflexivity;
  repeat match goal with
         | H : Qle_bool _ _ = true |- _ => apply Qle_bool_iff in H
         | H : Qle_bool _ _ = false |- _ => apply Qle_bool_false in H
         end;
  change (inject_Z 100) with 100%Q in *;
  change (inject_Z 50) with 50%Q in *;
  change (inject_Z 0) with 0%Q in *;
  exfalso; lra.
Qed.

(** X3: the connection plan is the selector applied to the estimate, so
    the handler of lines 79-82 never runs; the count is 1, 4, 8 or 16, and
    a failed probe gives 10 Mbps and therefore 4 connections. *)
Theorem connection_plan_follows_probe (env : Collaborators) :
  (exists mbps,
     measure_download_speed (speedtest env) = Returns mbps /\
     connection_plan env = (mbps, choose_connections mbps)) /\
  In (snd (connection_plan env)) [1; 4; 8; 16] /\
  (speedtest_fails (speedtest env) -> connection_plan env = (10%Q, 4)).
Proof.
  destruct (measure_download_speed_returns (speedtest env)) as [mbps Hm].
  unfold connection_plan. split; [|split].
  - exists mbps. rewrite Hm. auto.
  - rewrite Hm. apply choose_connections_values.
  - intros Hfail. rewrite (measure_download_speed_fallback _ Hfail).
    reflexivity.
Qed.

(** X4: the download is handed to aria2c exactly when aria2c is installed
    and the estimate is at least 10 Mbps, with the connection count as
    both [-x] and [-s] and a 1M split size; otherwise no external
    downloader and no arguments are set.  The retry keeps the choice. *)
Theorem aria2_delegation env template hook mbps :
  measure_download_speed (speedtest env) = Returns mbps ->
  let opts := first_attempt_opts env template hook in
  let n := PyStr.str_of_Z (choose_connections mbps) in
  (which env "aria2c" = true -> (10 <= mbps)%Q ->
   external_downloader opts = Some "aria2c" /\
   external_downloader_args opts = ["-x"; n; "-s"; n; "-k"; "1M"]) /\
  (which env "aria2c" = false \/ (mbps < 10)%Q ->
   external_downloader opts = None /\ external_downloader_args opts = []) /\
  external_downloader (set_quiet false opts) = external_downloader opts /\
  external_downloader_args (set_quiet false opts)
  = external_downloader_args opts.
Proof.
  intros Hm opts n.
  assert (snd (connection_plan env) = choose_connections mbps) as Hplan
    by (unfold connection_plan; rewrite Hm; reflexivity).
  unfold opts, first_attempt_opts, make_ytdlp_opts, check_tool_exists.
  rewrite Hplan, several_connections_from_10. simpl.
  split; [|split; [|split; reflexivity]].
  - intros -> Hfast. apply Qle_bool_iff in Hfast. rewrite Hfast. auto.
  - intros [-> | Hslow]; [auto|].
    apply Qle_bool_false in Hslow. rewrite Hslow, andb_false_r. auto.
Qed.

Lemma connection_plan_follows_probe_witness :
  connection_plan
    (Edge.make_env ["ffmpeg"; "aria2c"] speedtest_unreachable
                   Scenario.extract_song Scenario.encoder_writes)
  = (10%Q, 4).
Proof.
  apply (connection_plan_follows_probe
           (Edge.make_env ["ffmpeg"; "aria2c"] speedtest_unreachable
                          Scenario.extract_song Scenario.encoder_writes)).
  right; left. eexists. reflexivity.
Defined.

Lemma aria2_delegation_witness :
  let env := Edge.make_env ["ffmpeg"; "aria2c"] speedtest_72mbps
                           Scenario.extract_song Scenario.encoder_writes in
  let opts := first_attempt_opts env "downloads/%(title).200s.%(ext)s" None in
  external_downloader opts = Some "aria2c" /\
  external_downloader_args opts = ["-x"; "8"; "-s"; "8"; "-k"; "1M"].
Proof.
  intros env opts.
  destruct (aria2_delegation env "downloads/%(title).200s.%(ext)s" None
              (72500000 / 1000000)%Q eq_refl) as (Hfast & _).
  apply Hfast; [reflexivity | discriminate].
Defined.

(** ** The output template *)

Lemma joinpath_part (p : Path) (s : string) :
  wf_part s -> joinpath p s = (p ++ [s])%list.
Proof.
  intros Hs.
  assert (String.prefix "/" s = false) as Hrel.
  { rewrite <- (string_app_empty_r s). apply wf_part_not_rooted. exact Hs. }
  unfold joinpath, Path_of_str. cbv zeta.
  rewrite Hrel, (split_on_no_sep _ (proj1 Hs)).
  simpl. rewrite (proj2 Hs). reflexivity.
Qed.

Lemma child_of_directory (dir : Path) (s : string) :
  wf_part s -> FS.is_child_of dir (dir ++ [s])%list = true.
Proof.
  intros Hs. unfold FS.is_child_of.
  rewrite length_app, Nat.add_1_r, Nat.eqb_refl, take_app_length.
  rewrite bool_decide_eq_true_2 by reflexivity.
  destruct dir as [|d [|d' dir]]; simpl; [|reflexivity..].
  rewrite (wf_part_not_root _ Hs). reflexivity.
Qed.

Lemma path_with_part_wf (p : Path) (s : string) :
  wf_path p -> wf_part s -> wf_path (p ++ [s])%list.
Proof.
  intros [Hp|(body & -> & Hbody)] Hs.
  - left. apply Forall_app. auto.
  - right. exists (body ++ [s])%list. split; [reflexivity|].
    apply Forall_app. auto.
Qed.

(** X5: when both directory creations succeed, the output template given
    to the extractor reads back as the entry [%(title).200s.%(ext)s]
    directly inside the output directory, whatever the directory text. *)
Theorem outtmpl_in_output_directory env od hook w template w1 :
  preparation env (output_path_of od) w = (Returns template, w1) ->
  outtmpl (first_attempt_opts env template hook) = template /\
  Path_of_str template
  = (output_path_of od ++ ["%(title).200s.%(ext)s"])%list /\
  FS.is_child_of (output_path_of od) (Path_of_str template) = true.
Proof.
  assert (wf_part "%(title).200s.%(ext)s") as Hpart by (split; reflexivity).
  unfold preparation, safe_outtmpl, mkdir_parents, bind, call, ret.
  destruct (os_mkdir env (output_path_of od) (fs w)) as [[[]|e1] fs1];
    simpl; [|discriminate].
  destruct (os_mkdir env (output_path_of od) fs1) as [[[]|e2] fs2];
    simpl; [|discriminate].
  intros [= <- _]. split; [reflexivity|].
  rewrite (joinpath_part _ _ Hpart).
  rewrite Path_of_str_str
    by (apply path_with_part_wf; [apply output_path_wf | exact Hpart]).
  split; [reflexivity|]. apply child_of_directory. exact Hpart.
Qed.

Lemma outtmpl_in_output_directory_witness :
  Path_of_str "/srv/media/audio/%(title).200s.%(ext)s"
  = ["/"; "srv"; "media"; "audio"; "%(title).200s.%(ext)s"].
Proof.
  apply (outtmpl_in_output_directory
           (Scenario.make_env true Scenario.extract_song
                              Scenario.encoder_writes)
           (Some "/srv//media/./audio/") None Scenario.start
           "/srv/media/audio/%(title).200s.%(ext)s"
           {| fs := Scenario.stale_files;
              trace := [EvMkdir ["/"; "srv"; "media"; "audio"];
                        EvMkdir ["/"; "srv"; "media"; "audio"]] |}).
  reflexivity.
Defined.

(** ** An extraction that returns nothing *)

(** X6: when the first extraction attempt returns [None] instead of
    raising, there is no retry and no classification: the call ends with
    a [TypeError] after that single extraction call. *)
Theorem none_info_raises_type_error env url od c k hook w template w1 fs1 :
  preparation env (output_path_of od) w = (Returns template, w1) ->
  extract_info env (first_attempt_opts env template hook) url (fs w1)
  = (Returns None, fs1) ->
  download_audio_from_youtube env url od c k hook w
  = (Raises (TypeError "argument of type 'NoneType' is not iterable"),
     {| fs := fs1;
        trace := trace w1
                 ++ [EvExtract (first_attempt_opts env template hook) url] |}).
Proof.
  intros Hprep Hnone.
  pose proof (front_after_preparation env url od hook w template w1 Hprep)
    as Hfront.
  rewrite (extraction_stage_first_returns _ _ _ _ _ _ Hnone) in Hfront.
  rewrite (download_front_returns _ _ _ _ _ _ _ _ _ Hfront).
  reflexivity.
Qed.

Lemma none_info_raises_type_error_witness :
  let env := Scenario.make_env true Edge.extract_none
                               Scenario.encoder_writes in
  fst (download_audio_from_youtube env Scenario.url None true false None
                                   Scenario.start)
  = Raises (TypeError "argument of type 'NoneType' is not iterable").
Proof.
  intros env.
  rewrite (none_info_raises_type_error
             env Scenario.url None true false None Scenario.start
             "downloads/%(title).200s.%(ext)s"
             {| fs := Scenario.stale_files;
                trace := [EvMkdir ["downloads"]; EvMkdir ["downloads"]] |}
             Scenario.stale_files eq_refl eq_refl).
  reflexivity.
Defined.

(** ** Runs without conversion *)

(** X8: without conversion the pipeline does nothing after the extraction:
    whatever the outcome, the call ends in the world the extraction stage
    left, with no unlink and no process spawned. *)
Theorem no_conversion_leaves_the_world env url od k hook w r0 w2 r w' :
  front env url od hook w = (r0, w2) ->
  download_audio_from_youtube env url od false k hook w = (r, w') ->
  w' = w2.
Proof.
  intros Hfront Hrun. destruct r0 as [[info|]|e].
  - rewrite (download_front_returns _ _ _ _ _ _ _ _ _ Hfront) in Hrun.
    unfold back, bind in Hrun. rewrite file_detection_some in Hrun.
    destruct (find_downloaded_file (fs w2) info (output_path_of od))
      as [p|] eqn:Hfind.
    + destruct (find_downloaded_file_exists _ _ _ _ Hfind) as [st Hst].
      simpl fst in Hrun; simpl snd in Hrun.
      rewrite (summarise_run _ _ _ _ _ _ _ _ Hst) in Hrun. congruence.
    + congruence.
  - rewrite (download_front_returns _ _ _ _ _ _ _ _ _ Hfront) in Hrun.
    injection Hrun as _ <-. reflexivity.
  - rewrite (download_front_raises _ _ _ _ _ _ _ _ _ Hfront) in Hrun.
    congruence.
Qed.

Lemma no_conversion_leaves_the_world_witness :
  let env := Scenario.make_env true Scenario.extract_song
                               Scenario.encoder_writes in
  snd (download_audio_from_youtube env Scenario.url None false false None
                                   Scenario.start)
  = snd (front env Scenario.url None None Scenario.start).
Proof.
  intros env.
  apply (no_conversion_leaves_the_world
           env Scenario.url None false None Scenario.start
           (fst (front env Scenario.url None None Scenario.start)) _
           (fst (download_audio_from_youtube env Scenario.url None false false
                                             None Scenario.start)));
    reflexivity.
Defined.



(** ** Failures and the sequence of external calls *)

Lemma encoding_shape env mp3_path p k files w :
  exists r w' uo,
    encoding env mp3_path p k files w = (r, w') /\
    trace w' = (trace w ++ EvSpawn (ffmpeg_cmd p mp3_path) :: uo)%list /\
    In uo [[]; [EvUnlink p]] /\
    (forall e, r = Raises e -> conversion_failure e).
Proof.
  unfold encoding.
  destruct (run_process env (ffmpeg_cmd p mp3_path) (fs w)) as [proc fs1].
  destruct (returncode proc =? 0).
  - unfold after_encoding, log. simpl fs. simpl trace.
    destruct k.
    + do 2 eexists. exists []. split; [reflexivity|]. split; [reflexivity|].
      split; [left; reflexivity|]. intros e [=].
    + destruct (fs1 !! p) as [stp|].
      * destruct (st_isdir stp); do 2 eexists; exists [EvUnlink p];
          (split; [reflexivity|]);
          (split; [simpl; rewrite <- app_assoc; reflexivity|]);
          (split; [right; left; reflexivity|]); intros e [=].
        subst e. do 2 right. eauto.
      * do 2 eexists. exists []. split; [reflexivity|]. split; [reflexivity|].
        split; [left; reflexivity|]. intros e [=].
  - do 2 eexists. exists []. split; [reflexivity|]. split; [reflexivity|].
    split; [left; reflexivity|]. intros e [= <-]. right. left. eauto.
Qed.

Lemma mp3_conversion_shape env output_path p k files w :
  exists r w' us sp uo,
    mp3_conversion env output_path p k files w = (r, w') /\
    trace w' = (trace w ++ us ++ sp ++ uo)%list /\
    conversion_calls output_path p us sp uo /\
    (forall e, r = Raises e -> conversion_failure e).
Proof.
  rewrite mp3_conversion_run. cbv zeta. unfold conversion_calls.
  set (mp3_path := mp3_path_of output_path p).
  destruct (which env "ffmpeg").
  - destruct (fs w !! mp3_path) as [st|].
    + destruct (st_isdir st).
      * do 2 eexists. exists [EvUnlink mp3_path], [], [].
        split; [reflexivity|]. split; [reflexivity|].
        split; [simpl; auto|]. intros e [= <-]. do 2 right. eauto.
      * destruct (encoding_shape env mp3_path p k files
                    (log (EvUnlink mp3_path) w (delete mp3_path (fs w))))
          as (r & w' & uo & Henc & Htrace & Huo & Herr).
        exists r, w', [EvUnlink mp3_path],
          [EvSpawn (ffmpeg_cmd p mp3_path)], uo.
        split; [exact Henc|]. split.
        { rewrite Htrace. simpl. rewrite <- app_assoc. reflexivity. }
        split; [simpl; auto | exact Herr].
    + destruct (encoding_shape env mp3_path p k files w)
        as (r & w' & uo & Henc & Htrace & Huo & Herr).
      exists r, w', [], [EvSpawn (ffmpeg_cmd p mp3_path)], uo.
      split; [exact Henc|]. split; [exact Htrace|].
      split; [simpl; auto | exact Herr].
  - do 2 eexists. exists [], [], [].
    split; [reflexivity|]. split; [rewrite app_nil_r; reflexivity|].
    split; [simpl; auto|]. intros e [= <-]. left. reflexivity.
Qed.

Lemma back_shape env info output_path c k w2 r w' :
  back env info output_path c k w2 = (r, w') ->
  exists p us sp uo,
    trace w' = (trace w2 ++ us ++ sp ++ uo)%list /\
    conversion_calls output_path p us sp uo /\
    (c = false -> us = [] /\ sp = [] /\ uo = []) /\
    (forall e, r = Raises e -> late_failure e).
Proof.
  assert (forall p, conversion_calls output_path p [] [] []) as Hnone
    by (intros p; unfold conversion_calls; simpl; auto).
  unfold back, bind. destruct info as [info|].
  - rewrite file_detection_some.
    destruct (find_downloaded_file (fs w2) info output_path) as [p|] eqn:Hfind.
    + destruct (find_downloaded_file_exists _ _ _ _ Hfind) as [st Hst].
      simpl fst; simpl snd. rewrite (summarise_run _ _ _ _ _ _ _ _ Hst).
      destruct c.
      * destruct (mp3_conversion_shape env output_path p k
                    [original_file_entry p st] w2)
          as (r1 & w1 & us & sp & uo & Hconv & Htrace & Hcalls & Herr).
        rewrite Hconv. intros Hrun. exists p, us, sp, uo.
        destruct r1 as [files|e1]; injection Hrun as <- <-;
          (split; [exact Htrace|]); (split; [exact Hcalls|]);
          (split; [discriminate|]).
        -- intros e [=].
        -- intros e [= <-]. do 2 right. apply Herr. reflexivity.
      * intros [= <- <-]. exists p, [], [], [].
        split; [rewrite app_nil_r; reflexivity|]. split; [apply Hnone|].
        split; [auto|]. intros e [=].
    + intros [= <- <-]. exists [], [], [], [].
      split; [rewrite app_nil_r; reflexivity|]. split; [apply Hnone|].
      split; [auto|]. intros e [= <-]. right. left. reflexivity.
  - intros [= <- <-]. exists [], [], [], [].
    split; [rewrite app_nil_r; reflexivity|]. split; [apply Hnone|].
    split; [auto|]. intros e [= <-]. left. reflexivity.
Qed.

Lemma front_shape env url od hook w r w2 :
  front env url od hook w = (r, w2) ->
  exists template mk ex,
    trace w2 = (trace w ++ mk ++ ex)%list /\
    front_calls (output_path_of od) url
                (first_attempt_opts env template hook) mk ex /\
    (forall e, r = Raises e ->
       (exists w1, preparation env (output_path_of od) w = (Raises e, w1)) \/
       (exists e2, e = classify_failure e2)).
Proof.
  unfold front, bind.
  destruct (preparation env (output_path_of od) w) as [[template|e0] w1]
    eqn:Hprep.
  - assert (trace w1 = (trace w ++ [EvMkdir (output_path_of od);
                                   EvMkdir (output_path_of od)])%list)
      as Hmk.
    { revert Hprep.
      unfold preparation, safe_outtmpl, mkdir_parents, call, bind, ret.
      destruct (os_mkdir env (output_path_of od) (fs w)) as [[[]|e1] fs1];
        simpl; [|discriminate].
      destruct (os_mkdir env (output_path_of od) fs1) as [[[]|e2] fs2];
        simpl; [|discriminate].
      intros [= _ <-]. simpl. rewrite <- app_assoc. reflexivity. }
    set (opts := first_attempt_opts env template hook).
    destruct (extract_info env opts url (fs w1)) as [[i|e1] fs1] eqn:Hfirst.
    + rewrite (extraction_stage_first_returns _ _ _ _ _ _ Hfirst).
      intros [= <- <-].
      exists template, [EvMkdir (output_path_of od);
                        EvMkdir (output_path_of od)], [EvExtract opts url].
      split; [simpl trace; rewrite Hmk, <- app_assoc; reflexivity|].
      split; [split; simpl; auto|]. intros e [=].
    + rewrite (extraction_stage_first_raises _ _ _ _ _ _ Hfirst).
      destruct (extract_info env (set_quiet false opts) url fs1)
        as [[i|e2] fs2]; intros [= <- <-];
        exists template, [EvMkdir (output_path_of od);
                          EvMkdir (output_path_of od)],
          [EvExtract opts url; EvExtract (set_quiet false opts) url];
        (split; [simpl trace; rewrite Hmk, <- app_assoc; reflexivity|]);
        (split; [split; simpl; auto|]); intros e [=].
      subst e. right. eauto.
  - intros [= <- <-].
    assert (exists mk, trace w1 = (trace w ++ mk)%list /\
              In mk [[EvMkdir (output_path_of od)];
                     [EvMkdir (output_path_of od);
                      EvMkdir (output_path_of od)]])
      as (mk & Hmk & Hin).
    { revert Hprep.
      unfold preparation, safe_outtmpl, mkdir_parents, call, bind, ret.
      destruct (os_mkdir env (output_path_of od) (fs w)) as [[[]|e1] fs1];
        simpl.
      - destruct (os_mkdir env (output_path_of od) fs1) as [[[]|e2] fs2];
          simpl; [discriminate|].
        intros [= _ <-]. simpl. eexists. split.
        + rewrite <- app_assoc. reflexivity.
        + simpl. auto.
      - intros [= _ <-]. simpl. eexists. split; [reflexivity | simpl; auto]. }
    exists "", mk, [].
    split; [rewrite app_nil_r; exact Hmk|].
    split; [split; [exact Hin | simpl; auto]|].
    intros e [= <-]. left. eauto.
Qed.



(** X13: the external calls of every run are, in this order: one or two
    directory creations, at most two extraction calls (the second with
    ["quiet"] off), at most one unlink of the MP3 path, at most one
    encoder process, at most one unlink of the located file. *)
Theorem external_calls_in_order env url od c k hook w r w' :
  download_audio_from_youtube env url od c k hook w = (r, w') ->
  exists template p mk ex us sp uo,
    trace w' = (trace w ++ mk ++ ex ++ us ++ sp ++ uo)%list /\
    front_calls (output_path_of od) url
                (first_attempt_opts env template hook) mk ex /\
    conversion_calls (output_path_of od) p us sp uo.
Proof.
  intros Hrun.
  destruct (front env url od hook w) as [[info|e0] w2] eqn:Hfront;
    destruct (front_shape _ _ _ _ _ _ _ Hfront)
      as (template & mk & ex & Htrace & Hfront_calls & _).
  - rewrite (download_front_returns _ _ _ _ _ _ _ _ _ Hfront) in Hrun.
    destruct (back_shape _ _ _ _ _ _ _ _ Hrun)
      as (p & us & sp & uo & Hback & Hcalls & _).
    exists template, p, mk, ex, us, sp, uo.
    split; [|auto]. rewrite Hback, Htrace, <- !app_assoc. reflexivity.
  - rewrite (download_front_raises _ _ _ _ _ _ _ _ _ Hfront) in Hrun.
    injection Hrun as <- <-.
    exists template, [], mk, ex, [], [], [].
    split; [rewrite Htrace, !app_nil_r; reflexivity|].
    split; [exact Hfront_calls|]. unfold conversion_calls. simpl. auto.
Qed.

Lemma external_calls_in_order_witness :
  let env := Scenario.make_env true
               (Scenario.extract_raises "timed out" "HTTP Error 403")
               Scenario.encoder_writes in
  exists template p mk ex us sp uo,
    trace (snd (download_audio_from_youtube env Scenario.url None true false
                                            None Scenario.start))
    = (trace Scenario.start ++ mk ++ ex ++ us ++ sp ++ uo)%list /\
    front_calls ["downloads"] Scenario.url
                (first_attempt_opts env template None) mk ex /\
    conversion_calls ["downloads"] p us sp uo.
Proof.
  intros env.
  apply (external_calls_in_order
           env Scenario.url None true false None Scenario.start
           (fst (download_audio_from_youtube env Scenario.url None true false
                                             None Scenario.start))).
  reflexivity.
Defined.

(** ** When no file is found *)





(** ** Outcomes of the conversion *)

Lemma download_reaches_conversion env url od k hook w info w2 p st :
  front env url od hook w = (Returns (Some info), w2) ->
  find_downloaded_file (fs w2) info (output_path_of od) = Some p ->
  fs w2 !! p = Some st ->
  which env "ffmpeg" = true ->
  (forall stm, fs w2 !! mp3_path_of (output_path_of od) p = Some stm ->
               st_isdir stm = false) ->
  download_audio_from_youtube env url od true k hook w =
  match encoding env (mp3_path_of (output_path_of od) p) p k
                 [original_file_entry p st]
                 (before_encoding (mp3_path_of (output_path_of od) p) w2) with
  | (Returns files, w') =>
      (Returns {| res_title := default "Unknown Title" (title info);
                  res_status := "success"; res_files := files |}, w')
  | (Raises e, w') => (Raises e, w')
  end.
Proof.
  intros Hfront Hfind Hst Hff Hfile.
  rewrite (download_front_returns _ _ _ _ _ _ _ _ _ Hfront).
  unfold back, bind. rewrite file_detection_some, Hfind.
  simpl fst; simpl snd.
  rewrite (summarise_run _ _ _ _ _ _ _ _ Hst), mp3_conversion_run.
  cbv zeta. rewrite Hff. unfold before_encoding.
  destruct (fs w2 !! mp3_path_of (output_path_of od) p) as [stm|] eqn:Hm;
    [|reflexivity].
  rewrite (Hfile stm eq_refl). reflexivity.
Qed.

(** X10: when the encoder exits with a non-zero status, the call fails
    with "MP3 conversion failed: " followed by the captured error stream,
    right after the encoder: the file system is as the encoder left it
    and the located file is not unlinked, whatever [keep_original] says. *)
Theorem conversion_failure_carries_stderr
    env url od k hook w info w2 p proc fs1 :
  front env url od hook w = (Returns (Some info), w2) ->
  find_downloaded_file (fs w2) info (output_path_of od) = Some p ->
  which env "ffmpeg" = true ->
  let mp3_path := mp3_path_of (output_path_of od) p in
  let cmd := ffmpeg_cmd p mp3_path in
  (forall stm, fs w2 !! mp3_path = Some stm -> st_isdir stm = false) ->
  run_process env cmd (fs (before_encoding mp3_path w2)) = (proc, fs1) ->
  returncode proc <> 0 ->
  download_audio_from_youtube env url od true k hook w
  = (Raises (RuntimeError ("MP3 conversion failed: " +:+ stderr proc)),
     log (EvSpawn cmd) (before_encoding mp3_path w2) fs1).
Proof.
  intros Hfront Hfind Hff mp3_path cmd Hfile Hrun Hrc.
  destruct (find_downloaded_file_exists _ _ _ _ Hfind) as [st Hst].
  rewrite (download_reaches_conversion _ _ _ _ _ _ _ _ _ _
             Hfront Hfind Hst Hff Hfile).
  fold mp3_path. unfold encoding. fold cmd. rewrite Hrun.
  apply Z.eqb_neq in Hrc. rewrite Hrc. reflexivity.
Qed.

Lemma conversion_failure_carries_stderr_witness :
  let env := Scenario.make_env true Scenario.extract_song
                               Edge.encoder_fails in
  download_audio_from_youtube env Scenario.url None true false None
                              Scenario.empty_start
  = (Raises (RuntimeError "MP3 conversion failed: No such file or directory"),
     {| fs := {[ ["downloads"; "song.webm"]
                 := Scenario.file_stat 200 5000000 ]};
        trace :=
          trace (snd (front env Scenario.url None None Scenario.empty_start))
          ++ [EvSpawn (ffmpeg_cmd ["downloads"; "song.webm"]
                                  ["downloads"; "song.mp3"])] |}).
Proof.
  intros env.
  rewrite (conversion_failure_carries_stderr
             env Scenario.url None false None Scenario.empty_start
             Scenario.song_info _ ["downloads"; "song.webm"]
             {| returncode := 1; stderr := "No such file or directory" |}
             {[ ["downloads"; "song.webm"]
                := Scenario.file_stat 200 5000000 ]}
             eq_refl eq_refl eq_refl).
  - reflexivity.
  - intros stm Hm. vm_compute in Hm. discriminate Hm.
  - vm_compute. reflexivity.
  - discriminate.
Defined.

(** X9: when the located file is itself the MP3 target (a download that
    is already [stem.mp3] in the output directory), the pipeline unlinks
    it as a stale MP3 and then starts the encoder on a file system without
    its input; when the encoder fails the call ends there, with the
    download gone even under [keep_original]. *)
Theorem source_at_mp3_path_is_deleted
    env url od k hook w info w2 p st proc fs1 :
  front env url od hook w = (Returns (Some info), w2) ->
  find_downloaded_file (fs w2) info (output_path_of od) = Some p ->
  which env "ffmpeg" = true ->
  mp3_path_of (output_path_of od) p = p ->
  fs w2 !! p = Some st -> st_isdir st = false ->
  run_process env (ffmpeg_cmd p p) (delete p (fs w2)) = (proc, fs1) ->
  delete p (fs w2) !! p = None /\
  exists r w' uo,
    download_audio_from_youtube env url od true k hook w = (r, w') /\
    trace w'
    = (trace w2 ++ EvUnlink p :: EvSpawn (ffmpeg_cmd p p) :: uo)%list /\
    (returncode proc <> 0 ->
     r = Raises (RuntimeError ("MP3 conversion failed: " +:+ stderr proc)) /\
     fs w' = fs1 /\ uo = []).
Proof.
  intros Hfront Hfind Hff Hsame Hst Hfile Hrun.
  split; [apply lookup_delete_eq|].
  rewrite (download_reaches_conversion _ _ _ _ _ _ _ _ _ _
             Hfront Hfind Hst Hff)
    by (rewrite Hsame, Hst; intros stm [= <-]; exact Hfile).
  rewrite Hsame. unfold before_encoding. rewrite Hst.
  destruct (returncode proc =? 0) eqn:Hrc0.
  - destruct (encoding_shape env p p k [original_file_entry p st]
                (log (EvUnlink p) w2 (delete p (fs w2))))
      as (r & w' & uo & Henc & Htrace & _ & _).
    simpl in Htrace. rewrite <- app_assoc in Htrace. rewrite Henc.
    apply Z.eqb_eq in Hrc0.
    destruct r as [files|e]; do 2 eexists; exists uo;
      (split; [reflexivity|]); (split; [exact Htrace|]);
      intros Hrc; contradiction.
  - unfold encoding, log. simpl fs. rewrite Hrun, Hrc0.
    do 2 eexists. exists [].
    split; [reflexivity|].
    split; [simpl; rewrite <- app_assoc; reflexivity|].
    intros _. auto.
Qed.

Lemma source_at_mp3_path_is_deleted_witness :
  let env := Scenario.make_env true Edge.extract_mp3 Edge.encoder_fails in
  let run := download_audio_from_youtube env Scenario.url None true true None
                                         Scenario.empty_start in
  fst run
  = Raises (RuntimeError "MP3 conversion failed: No such file or directory")
  /\ fs (snd run) !! ["downloads"; "talk.mp3"] = None.
Proof.
  intros env run.
  destruct (source_at_mp3_path_is_deleted
              env Scenario.url None true None Scenario.empty_start
              Edge.mp3_info _ ["downloads"; "talk.mp3"]
              (Scenario.file_stat 200 3000000)
              {| returncode := 1; stderr := "No such file or directory" |}
              ∅ eq_refl eq_refl eq_refl eq_refl eq_refl eq_refl)
    as (_ & r & w' & uo & Hrun & _ & Hfail).
  - vm_compute. reflexivity.
  - destruct Hfail as (Hr & Hfs & _); [discriminate|].
    unfold run. rewrite Hrun. simpl. rewrite Hr, Hfs. split; reflexivity.
Defined.



(** ** The encoder command *)

(** X14: in the encoder command the argument after [-i] reads back as the
    located file and the last argument as the MP3 path, for every located
    file whose parts are well formed (as every path built from a
    ["filepath"] string is). *)
Theorem encoder_arguments_name_the_files (od : option string) (p : Path) :
  wf_path p ->
  let mp3_path := mp3_path_of (output_path_of od) p in
  let cmd := ffmpeg_cmd p mp3_path in
  nth 2 cmd "" = "-i" /\
  Path_of_str (nth 3 cmd "") = p /\
  Path_of_str (List.last cmd "") = mp3_path /\
  (forall s, wf_path (Path_of_str s)).
Proof.
  intros Hp mp3_path cmd. split; [reflexivity|].
  split; [exact (Path_of_str_str p Hp)|].
  split; [apply mp3_path_roundtrip | apply Path_of_str_wf].
Qed.

Lemma encoder_arguments_name_the_files_witness :
  Path_of_str (nth 3 (ffmpeg_cmd (Path_of_str "/music//My Song.webm")
                                 (mp3_path_of (output_path_of (Some "/music"))
                                    (Path_of_str "/music//My Song.webm")))
                     "")
  = ["/"; "music"; "My Song.webm"].
Proof.
  apply (encoder_arguments_name_the_files (Some "/music")
           (Path_of_str "/music//My Song.webm")).
  apply Path_of_str_wf.
Defined.

(** ** Directory creation *)

(** X16: a failure to create the output directory is not caught or
    classified: the call ends with that very exception right after the
    first directory creation, before any extraction is attempted. *)
Theorem mkdir_failure_propagates env url od c k hook w e fs1 :
  os_mkdir env (output_path_of od) (fs w) = (Raises e, fs1) ->
  download_audio_from_youtube env url od c k hook w
  = (Raises e,
     {| fs := fs1; trace := trace w ++ [EvMkdir (output_path_of od)] |}).
Proof.
  intros Hmk. apply download_front_raises.
  unfold front, preparation, mkdir_parents, call, bind.
  rewrite Hmk. reflexivity.
Qed.

Lemma mkdir_failure_propagates_witness :
  let env :=
    {| which := fun _ => true;
       speedtest := speedtest_72mbps;
       os_mkdir := fun p files =>
         (Raises (LibraryError ("[Errno 13] Permission denied: "
                                +:+ pathlib.str p)), files);
       extract_info := Scenario.extract_song;
       run_process := Scenario.encoder_writes |} in
  download_audio_from_youtube env Scenario.url (Some "/root/out") true false
                              None Scenario.empty_start
  = (Raises (LibraryError "[Errno 13] Permission denied: /root/out"),
     {| fs := ∅; trace := [EvMkdir ["/"; "root"; "out"]] |}).
Proof.
  intros env.
  apply (mkdir_failure_propagates env Scenario.url (Some "/root/out")
           true false None Scenario.empty_start).
  reflexivity.
Defined.
